(** * CantiLever: the e-commerce scraper of [scraper_app.py]

    A shallow embedding of [scrape_website], of the memoisation that
    [@st.cache_data(ttl=3600)] puts around it, and of the price/rating
    correlation insight of the analytics tab, followed by the properties
    the specification states about them.

    Conventions.
    - A Python [str] is a [string] holding its UTF-8 bytes; substring
      search and replacement act on whole code points either way.
    - A Python [float] is a primitive binary64 [float]; a Python [int]
      is a [Z].
    - A Python exception is a value of [exn]; code that may raise returns
      a [pyresult].
    - The network, the HTML parser and the UI ([requests], [bs4],
      [streamlit]) are collaborators: the first two are parameters of the
      development, the third is a log of the messages it was sent. *)

From Stdlib Require Import ZArith List String Ascii Bool Lia Floats DecimalString.
From stdpp Require Import gmap strings.

Import ListNotations.
Local Open Scope string_scope.
Local Open Scope Z_scope.

(** ** Exceptions *)

(** The classes that matter to the two [except] clauses of
    [scrape_website]: [requests.RequestException] with its subclasses, and
    the other subclasses of [Exception] its body can meet. *)
Inductive exn_class :=
| RequestException | HTTPError | ConnectionError | Timeout
| AttributeError | ValueError | IndexError | TypeError | OtherError.

Record exn := mkExn { exn_cls : exn_class; exn_msg : string }.

(** [isinstance(e, requests.RequestException)] *)
Definition is_RequestException (e : exn) : bool :=
  match exn_cls e with
  | RequestException | HTTPError | ConnectionError | Timeout => true
  | _ => false
  end.

(** [str(e)] *)
Definition str_exn (e : exn) : string := exn_msg e.

Inductive pyresult (A : Type) :=
| Return (a : A)
| Raise (e : exn).
Arguments Return {A} a.
Arguments Raise {A} e.

Definition bind_result {A B} (r : pyresult A) (k : A -> pyresult B) : pyresult B :=
  match r with
  | Return a => k a
  | Raise e => Raise e
  end.

Declare Scope py_scope.
Delimit Scope py_scope with py.
Notation "x <- r ;; k" := (bind_result r (fun x => k))
  (at level 100, r at next level, right associativity) : py_scope.

(** Attribute access or method call on the result of a [find]: on [None]
    Python raises [AttributeError]. *)
Definition deref {A} (o : option A) : pyresult A :=
  match o with
  | Some a => Return a
  | None => Raise (mkExn AttributeError "'NoneType' object has no attribute")
  end.

(** ** Strings *)

Module Str.

(** [sub in s] *)
Fixpoint contains (sub s : string) : bool :=
  String.prefix sub s ||
  match s with
  | EmptyString => false
  | String _ s' => contains sub s'
  end.

(** [s.replace(old, new)] for a non-empty [old]: every occurrence, left
    to right, without overlap.  [skip] counts the bytes of a match still
    to be passed over. *)
Fixpoint replace_from (old new : string) (skip : nat) (s : string) : string :=
  match s with
  | EmptyString => EmptyString
  | String c s' =>
      match skip with
      | S k => replace_from old new k s'
      | O =>
          if String.prefix old s
          then new ++ replace_from old new (Nat.pred (String.length old)) s'
          else String c (replace_from old new O s')
      end
  end.

(** With an empty [old] Python puts [new] before every character and at
    the end. *)
Fixpoint intersperse (new s : string) : string :=
  match s with
  | EmptyString => new
  | String c s' => new ++ String c (intersperse new s')
  end.

Definition replace (s old new : string) : string :=
  match old with
  | EmptyString => intersperse new s
  | _ => replace_from old new O s
  end.

Definition byte_in (c : ascii) (lo hi : nat) : bool :=
  (Nat.leb lo (nat_of_ascii c) && Nat.leb (nat_of_ascii c) hi)%bool.

Definition byte_is (c : ascii) (n : nat) : bool := Nat.eqb (nat_of_ascii c) n.

(** The characters [str.isspace] accepts, as UTF-8: U+0009..000D,
    U+001C..0020, U+0085, U+00A0, U+1680, U+2000..200A, U+2028, U+2029,
    U+202F, U+205F, U+3000. *)
Definition space1 (c : ascii) : bool :=
  (byte_in c 9 13 || byte_in c 28 32)%bool.

Definition space2 (c1 c2 : ascii) : bool :=
  (byte_is c1 194 && (byte_is c2 133 || byte_is c2 160))%bool.

Definition space3 (c1 c2 c3 : ascii) : bool :=
  ((byte_is c1 225 && byte_is c2 154 && byte_is c3 128)
   || (byte_is c1 226 && byte_is c2 128
       && (byte_in c3 128 138 || byte_is c3 168 || byte_is c3 169 || byte_is c3 175))
   || (byte_is c1 226 && byte_is c2 129 && byte_is c3 159)
   || (byte_is c1 227 && byte_is c2 128 && byte_is c3 128))%bool.

Fixpoint lstrip (s : string) : string :=
  match s with
  | EmptyString => EmptyString
  | String c1 s1 =>
      if space1 c1 then lstrip s1 else
      match s1 with
      | EmptyString => s
      | String c2 s2 =>
          if space2 c1 c2 then lstrip s2 else
          match s2 with
          | EmptyString => s
          | String c3 s3 => if space3 c1 c2 c3 then lstrip s3 else s
          end
      end
  end.

Definition isblank (s : string) : bool :=
  match lstrip s with EmptyString => true | _ => false end.

Fixpoint rstrip (s : string) : string :=
  match s with
  | EmptyString => EmptyString
  | String c s' => if isblank s then EmptyString else String c (rstrip s')
  end.

(** [s.strip()] *)
Definition strip (s : string) : string := rstrip (lstrip s).

End Str.

(** ** Floats *)

(** [float(s)] of the Python runtime: surrounding whitespace is dropped,
    then an optional sign followed by [inf], [infinity], [nan] (in any
    case) or a decimal number with optional fraction and exponent, where
    digits may be grouped by single underscores.  Anything else raises
    [ValueError].  The digits read are the ASCII ones. *)
Module Py.

Definition is_digit (c : ascii) : bool := Str.byte_in c 48 57.
Definition digit (c : ascii) : Z := Z.of_nat (nat_of_ascii c) - 48.

Definition lower (c : ascii) : ascii :=
  if Str.byte_in c 65 90 then ascii_of_nat (nat_of_ascii c + 32) else c.

Fixpoint lowercase (s : string) : string :=
  match s with
  | EmptyString => EmptyString
  | String c s' => String (lower c) (lowercase s')
  end.

(** The rest of a digit part whose first digit has been read: [acc] is
    the number read so far, [n] how many digits it has. *)
Fixpoint digits_tail (acc : Z) (n : nat) (s : string) : Z * nat * string :=
  match s with
  | String c s' =>
      if is_digit c then digits_tail (10 * acc + digit c) (S n) s'
      else if Str.byte_is c 95 then
        match s' with
        | String c2 s'' =>
            if is_digit c2 then digits_tail (10 * acc + digit c2) (S n) s''
            else (acc, n, s)
        | EmptyString => (acc, n, s)
        end
      else (acc, n, s)
  | EmptyString => (acc, n, s)
  end.

Definition digitpart (acc : Z) (s : string) : option (Z * nat * string) :=
  match s with
  | String c s' =>
      if is_digit c then Some (digits_tail (10 * acc + digit c) 1 s') else None
  | EmptyString => None
  end.

(** [number ::= [digitpart] "." digitpart | digitpart ["."]]: the digits
    as one integer, the count of those after the point, and the rest. *)
Definition number (s : string) : option (Z * nat * string) :=
  match digitpart 0 s with
  | Some (m, _, rest) =>
      match rest with
      | String "." rest' =>
          match digitpart m rest' with
          | Some r => Some r
          | None => Some (m, O, rest')
          end
      | _ => Some (m, O, rest)
      end
  | None =>
      match s with
      | String "." rest' => digitpart 0 rest'
      | _ => None
      end
  end.

Definition sign (s : string) : bool * string :=
  match s with
  | String "-" s' => (true, s')
  | String "+" s' => (false, s')
  | _ => (false, s)
  end.

(** [exponent ::= ("e" | "E") [sign] digitpart]; absent when the input
    ends after the number. *)
Definition exponent (s : string) : option Z :=
  match s with
  | EmptyString => Some 0
  | String c s' =>
      if (Str.byte_is c 101 || Str.byte_is c 69)%bool then
        let '(neg, s'') := sign s' in
        match digitpart 0 s'' with
        | Some (e, _, EmptyString) => Some (if neg then - e else e)
        | _ => None
        end
      else None
  end.

Definition signed_zero (neg : bool) : float := if neg then neg_zero else zero.
Definition signed_infinity (neg : bool) : float :=
  if neg then neg_infinity else infinity.

(** The binary64 nearest to [m * 10 ^ e10] (ties to even), for [0 <= m].
    A negative [e10] divides; the quotient is taken with 64 bits or more
    and a sticky bit, which decides the rounding like the exact value. *)
Definition of_decimal (neg : bool) (m e10 : Z) : float :=
  let signed (z : Z) := if neg then - z else z in
  if m =? 0 then signed_zero neg
  else if 310 <? e10 then signed_infinity neg
  else if 0 <=? e10 then
    SF2Prim (binary_normalize FloatOps.prec emax (signed (m * 10 ^ e10)) 0 false)
  else if Z.log2 m + 1 + 3 * e10 <? -1100 then signed_zero neg
  else
    let d := 10 ^ (- e10) in
    let s := 64 + Z.log2_up d in
    let n := m * 2 ^ s in
    let sticky := if n mod d =? 0 then 0 else 1 in
    SF2Prim (binary_normalize FloatOps.prec emax
               (signed (2 * (n / d) + sticky)) (- (s + 1)) false).

Definition invalid (s : string) : exn :=
  mkExn ValueError ("could not convert string to float: '" ++ s ++ "'").

Definition float (s : string) : pyresult float :=
  let '(neg, body) := sign (Str.strip s) in
  let word := lowercase body in
  if (String.eqb word "inf" || String.eqb word "infinity")%bool
  then Return (signed_infinity neg)
  else if String.eqb word "nan" then Return nan
  else
    match number body with
    | Some (m, frac, rest) =>
        match exponent rest with
        | Some e => Return (of_decimal neg m (e - Z.of_nat frac))
        | None => Raise (invalid s)
        end
    | None => Raise (invalid s)
    end.

End Py.

(** ** Records and frames *)

(** The value stored under ['Rating']: an [int] on the books path, the
    float literal [5.0] on the quotes path. *)
Inductive pynum :=
| PyInt (z : Z)
| PyFloat (f : float).

(** One dictionary appended to [products]. *)
Record product := mkProduct {
  Title : string;
  Price : float;
  Rating : pynum;
  In_Stock : bool;
  Category : string
}.

(** A [pandas.DataFrame] built from a list of such dictionaries: its rows
    in order.  [pd.DataFrame()] and [pd.DataFrame([])] are the same frame,
    with no rows and no columns. *)
Record DataFrame := mkDataFrame { rows : list product }.

Definition pd_DataFrame (products : list product) : DataFrame := mkDataFrame products.
Definition pd_DataFrame_empty : DataFrame := mkDataFrame [].

(** [len(df)] and [df.empty] *)
Definition len (df : DataFrame) : nat := length (rows df).
Definition empty (df : DataFrame) : bool :=
  match rows df with [] => true | _ => false end.

(** [l[:n]] *)
Definition slice_to {A} (l : list A) (n : Z) : list A :=
  if 0 <=? n then firstn (Z.to_nat n) l
  else firstn (Z.to_nat (Z.of_nat (length l) + n)) l.

(** ** Collaborators *)

(** [requests.Response]: what [raise_for_status] and [.content] read. *)
Record Response := mkResponse { status_code : Z; content : string }.

Definition raise_for_status (r : Response) : pyresult unit :=
  if (400 <=? status_code r) && (status_code r <? 600)
  then Raise (mkExn HTTPError "Client or Server Error")
  else Return tt.

(** What [scrape_website] uses of BeautifulSoup, over any type of nodes:
    - [BeautifulSoup content features], the constructor;
    - [find_all node name cls] for [node.find_all(name, class_=cls)];
    - [find node name cls] for [node.find(name)] and
      [node.find(name, class_=cls)], [None] when nothing matches;
    - [get_attr node key] for [node.get(key)] on a single-valued attribute
      and [get_class node] for [node.get('class')], a list of tokens;
    - [text node] for [node.text]. *)
Class Bs4 (Tag : Type) := {
  BeautifulSoup : string -> string -> pyresult Tag;
  find_all : Tag -> string -> string -> list Tag;
  find : Tag -> string -> option string -> option Tag;
  get_attr : Tag -> string -> option string;
  get_class : Tag -> option (list string);
  text : Tag -> string
}.

(** [d.get(key, default)] on an optional value *)
Definition get_default {A} (o : option A) (default : A) : A :=
  match o with
  | Some a => a
  | None => default
  end.

(** A request as [requests.get] receives it. *)
Record request := mkRequest {
  req_url : string;
  req_headers : list (string * string);
  req_timeout : Z
}.

(** Messages sent to the page. *)
Inductive st_event :=
| st_warning (msg : string)
| st_error (msg : string).

(** The observable effects of a run: the requests sent, oldest first, and
    the messages shown, oldest first. *)
Record World := mkWorld {
  sent : list request;
  shown : list st_event
}.

Definition world0 : World := mkWorld [] [].

(** Effectful code: may raise, and changes the world either way. *)
Definition M (A : Type) : Type := World -> pyresult A * World.

Definition ret {A} (a : A) : M A := fun w => (Return a, w).

Definition bind {A B} (m : M A) (k : A -> M B) : M B :=
  fun w =>
    match m w with
    | (Return a, w') => k a w'
    | (Raise e, w') => (Raise e, w')
    end.

Definition lift {A} (r : pyresult A) : M A := fun w => (r, w).

(** [try: body  except: handler] *)
Definition try_except {A} (body : M A) (handler : exn -> M A) : M A :=
  fun w =>
    match body w with
    | (Return a, w') => (Return a, w')
    | (Raise e, w') => handler e w'
    end.

Declare Scope M_scope.
Delimit Scope M_scope with M.
Notation "x <- m ;; k" := (bind m (fun x => k))
  (at level 100, m at next level, right associativity) : M_scope.
Notation "m ;; k" := (bind m (fun _ => k))
  (at level 100, right associativity) : M_scope.

Definition show (e : st_event) : M unit :=
  fun w => (Return tt, mkWorld (sent w) (shown w ++ [e])%list).

(** ** The scraper *)

(** [rating_map = {'One': 1, 'Two': 2, 'Three': 3, 'Four': 4, 'Five': 5}] *)
Definition rating_map : gmap string Z :=
  <["One" := 1]> (<["Two" := 2]> (<["Three" := 3]> (<["Four" := 4]> (<["Five" := 5]> ∅)))).

Section Scraper.

Context {Tag : Type} `{Bs4 Tag}.

(** The network: the answer to a request, which may depend on how many
    requests were sent before it. *)
Variable internet : nat -> request -> pyresult Response.

(** [requests.get(url, headers=headers, timeout=timeout)] *)
Definition requests_get (url : string) (headers : list (string * string))
    (timeout : Z) : M Response :=
  fun w =>
    let req := mkRequest url headers timeout in
    (internet (length (sent w)) req, mkWorld (sent w ++ [req])%list (shown w)).

Definition headers : list (string * string) :=
  [("User-Agent", "Mozilla/5.0 (Windows NT 10.0; Win64; x64) AppleWebKit/537.36")].

(** Lines 66-84: the body of the [try] inside [for book in books]. *)
Definition extract_book (book : Tag) : pyresult product :=
  (h3 <- deref (find book "h3" None) ;;
   a <- deref (find h3 "a" None) ;;
   let title := get_default (get_attr a "title") "N/A" in
   price_color <- deref (find book "p" (Some "price_color")) ;;
   let price_text := Str.strip (text price_color) in
   price <- Py.float (Str.replace (Str.replace price_text "£" "") "$" "") ;;
   rating_element <- deref (find book "p" (Some "star-rating")) ;;
   let rating_class := get_default (get_class rating_element) [] in
   let rating :=
     if (1 <? length rating_class)%nat
     then get_default (rating_map !! nth 1 rating_class "") 0
     else 0 in
   let availability := find book "p" (Some "instock availability") in
   let in_stock :=
     match availability with
     | Some tag => Str.contains "In stock" (Str.strip (text tag))
     | None => false
     end in
   Return {| Title := title;
             Price := price;
             Rating := PyInt rating;
             In_Stock := in_stock;
             Category := "Books" |})%py.

(** Lines 94-103: the body of the [try] inside [for quote in quotes]. *)
Definition extract_quote (quote : Tag) : pyresult product :=
  (span <- deref (find quote "span" (Some "text")) ;;
   let text_ := Str.strip (text span) in
   small <- deref (find quote "small" (Some "author")) ;;
   let author := Str.strip (text small) in
   Return {| Title := "Quote by " ++ author;
             Price := 0%float;
             Rating := PyFloat 5%float;
             In_Stock := true;
             Category := "Quotes" |})%py.

(** [for block in blocks: try: products.append(extract(block))
    except Exception: continue], from [products = []]. *)
Definition scrape_loop (extract : Tag -> pyresult product) (blocks : list Tag)
    : list product :=
  fold_left
    (fun products block =>
       match extract block with
       | Return record => (products ++ [record])%list
       | Raise _ => products
       end)
    blocks [].

Definition unsupported_warning : string :=
  "⚠️ This website might not be supported. Try books.toscrape.com or quotes.toscrape.com".

(** Lines 51-111: the body of the outer [try]. *)
Definition scrape_body (url : string) (max_items : Z) : M DataFrame :=
  (response <- requests_get url headers 10 ;;
   _ <- lift (raise_for_status response) ;;
   soup <- lift (BeautifulSoup (content response) "html.parser") ;;
   if Str.contains "books.toscrape.com" url then
     let books := slice_to (find_all soup "article" "product_pod") max_items in
     ret (pd_DataFrame (scrape_loop extract_book books))
   else if Str.contains "quotes.toscrape.com" url then
     let quotes := slice_to (find_all soup "div" "quote") max_items in
     ret (pd_DataFrame (scrape_loop extract_quote quotes))
   else
     show (st_warning unsupported_warning) ;;
     ret pd_DataFrame_empty)%M.

(** Lines 113-118: the two [except] clauses, tried in order. *)
Definition scrape_handler (e : exn) : M DataFrame :=
  (if is_RequestException e then
     show (st_error ("❌ Error fetching website: " ++ str_exn e)) ;;
     ret pd_DataFrame_empty
   else
     show (st_error ("❌ Scraping error: " ++ str_exn e)) ;;
     ret pd_DataFrame_empty)%M.

(** [scrape_website(url, max_items)], the function under the decorator. *)
Definition scrape_website (url : string) (max_items : Z) : M DataFrame :=
  try_except (scrape_body url max_items) scrape_handler.

End Scraper.

(** ** A document tree for the examples *)

(** A small implementation of the parser interface: element trees whose
    [class] attribute is kept as its list of tokens, searched in document
    order.  [parser pages] parses exactly the renderings of [pages]. *)
Module Dom.

#[local] Set Warnings "-register-all".

Inductive node :=
| Element (name : string) (classes : option (list string))
    (attrs : list (string * string)) (children : list node)
| Text (s : string).

Fixpoint descendants (n : node) : list node :=
  match n with
  | Element _ _ _ children => flat_map (fun k => k :: descendants k) children
  | Text _ => []
  end.

Fixpoint node_text (n : node) : string :=
  match n with
  | Element _ _ _ children => String.concat "" (map node_text children)
  | Text s => s
  end.

(** A [class_] filter accepts a tag when it is one of the tokens or the
    whole attribute. *)
Definition has_class (c : string) (classes : option (list string)) : bool :=
  match classes with
  | Some tokens => existsb (String.eqb c) tokens || String.eqb c (String.concat " " tokens)
  | None => false
  end.

Definition matches (name : string) (cls : option string) (n : node) : bool :=
  match n with
  | Element nm classes _ _ =>
      String.eqb nm name &&
      match cls with
      | Some c => has_class c classes
      | None => true
      end
  | Text _ => false
  end.

Fixpoint assoc (key : string) (l : list (string * string)) : option string :=
  match l with
  | [] => None
  | (k, v) :: l' => if String.eqb k key then Some v else assoc key l'
  end.

Definition render_attr (kv : string * string) : string :=
  " " ++ fst kv ++ "='" ++ snd kv ++ "'".

Fixpoint render (n : node) : string :=
  match n with
  | Element nm classes attrs children =>
      "<" ++ nm
      ++ match classes with
         | Some tokens => render_attr ("class", String.concat " " tokens)
         | None => ""
         end
      ++ String.concat "" (map render_attr attrs)
      ++ ">" ++ String.concat "" (map render children) ++ "</" ++ nm ++ ">"
  | Text s => s
  end.

Definition parse (pages : list node) (content : string) : pyresult node :=
  match List.find (fun page => String.eqb (render page) content) pages with
  | Some page => Return (Element "[document]" None [] [page])
  | None => Raise (mkExn OtherError "unknown document")
  end.

Definition parser (pages : list node) : Bs4 node := {|
  BeautifulSoup content _ := parse pages content;
  find_all n name cls := List.filter (matches name (Some cls)) (descendants n);
  find n name cls := List.find (matches name cls) (descendants n);
  get_attr n key :=
    match n with
    | Element _ _ attrs _ => assoc key attrs
    | Text _ => None
    end;
  get_class n :=
    match n with
    | Element _ classes _ _ => classes
    | Text _ => None
    end;
  text := node_text
|}.

(** One listing of books.toscrape.com. *)
Definition product_pod (title price : string) (rating : option (list string)) : node :=
  Element "article" (Some ["product_pod"]) []
    ((match rating with
      | Some tokens => [Element "p" (Some tokens) [] []]
      | None => []
      end)
     ++ [Element "h3" None [] [Element "a" None [("title", title)] [Text title]];
         Element "div" (Some ["product_price"]) []
           [Element "p" (Some ["price_color"]) [] [Text price];
            Element "p" (Some ["instock"; "availability"]) [] [Text "
  In stock
"]]])%list.

(** One quote of quotes.toscrape.com. *)
Definition quote_div (words author : string) : node :=
  Element "div" (Some ["quote"]) []
    [Element "span" (Some ["text"]) [] [Text words];
     Element "span" None [] [Text "by "; Element "small" (Some ["author"]) [] [Text author]]].

Definition page (blocks : list node) : node :=
  Element "html" None [] [Element "body" None [] blocks].

(** A network that serves the given pages, and fails to connect to any
    other address. *)
Definition serve (site : list (string * node)) (_ : nat) (req : request)
    : pyresult Response :=
  match List.find (fun entry => String.eqb (fst entry) (req_url req)) site with
  | Some (_, doc) => Return (mkResponse 200 (render doc))
  | None => Raise (mkExn ConnectionError "Failed to establish a new connection")
  end.

End Dom.

(** ** The result cache *)

(** Modelled from the spec: the Result Cache.  [scrape_website] is wrapped
    by [@st.cache_data(ttl=3600)], whose implementation belongs to
    Streamlit and not to this repository.  The model follows section 4.4
    of the specification: an entry is read when it exists for the exact
    (identifier, max_items) key and [now - created_at < TTL]; otherwise the
    wrapped function runs and its result is stored when it returns; a call
    that raises stores nothing. *)
Record CacheEntry := mkCacheEntry { value : DataFrame; created_at : Z }.

(** Modelled from the spec: an entry may be read while
    [now - created_at < TTL]. *)
Definition fresh (ttl now : Z) (entry : CacheEntry) : bool :=
  now - created_at entry <? ttl.

(** Modelled from the spec: [get_or_compute], the read path and the write
    path of the Result Cache, for the decorator whose code is not in the
    repository.  The result is stored only when [compute] returns. *)
Definition get_or_compute (ttl now : Z) (key : string * Z) (compute : M DataFrame)
    (cache : gmap (string * Z) CacheEntry) (w : World)
    : pyresult DataFrame * gmap (string * Z) CacheEntry * World :=
  let recompute :=
    match compute w with
    | (Return df, w') => (Return df, <[key := mkCacheEntry df now]> cache, w')
    | (Raise e, w') => (Raise e, cache, w')
    end in
  match cache !! key with
  | Some entry => if fresh ttl now entry then (Return (value entry), cache, w) else recompute
  | None => recompute
  end.

(** [scrape_website] as the rest of the program sees it, called at time
    [now] (in seconds). *)
Definition cached_scrape_website {Tag : Type} `{Bs4 Tag}
    (internet : nat -> request -> pyresult Response)
    (now : Z) (url : string) (max_items : Z)
    (cache : gmap (string * Z) CacheEntry) (w : World)
    : pyresult DataFrame * gmap (string * Z) CacheEntry * World :=
  get_or_compute 3600 now (url, max_items) (scrape_website internet url max_items) cache w.

(** Whether a call at time [now] finds a usable entry. *)
Definition cache_hit (ttl now : Z) (key : string * Z)
    (cache : gmap (string * Z) CacheEntry) : bool :=
  match cache !! key with
  | Some entry => fresh ttl now entry
  | None => false
  end.

(** ** Analytics *)

(** [df['Price'].corr(df['Rating'])] is computed by pandas.  With the
    default arguments it drops the pairs that have a missing value, gives
    NaN when no pair is left, and otherwise returns entry (0, 1) of
    [numpy.corrcoef]: the covariance matrix of the two columns, each minus
    its mean, divided by the square roots of its diagonal entries and
    clipped to [-1, 1].  Sums are taken from left to right. *)
Module Pandas.

(** [float(n)] for an [int] *)
Definition of_int (z : Z) : float := Py.of_decimal (z <? 0) (Z.abs z) 0.

Definition notna (f : float) : bool := negb (is_nan f).

Definition dropna (a b : list float) : list (float * float) :=
  List.filter (fun p => notna (fst p) && notna (snd p)) (combine a b).

Definition fsum (l : list float) : float :=
  match l with
  | [] => 0%float
  | x :: l' => fold_left PrimFloat.add l' x
  end.

Definition mean (l : list float) : float :=
  (fsum l / of_int (Z.of_nat (length l)))%float.

Definition demean (l : list float) : list float :=
  map (fun v => (v - mean l)%float) l.

Definition dot (a b : list float) : float :=
  fsum (map (fun p => (fst p * snd p)%float) (combine a b)).

(** [1 / (n - ddof)] with [ddof = 1], the divisor replaced by [0.0] when it
    is not positive. *)
Definition cov_scale (n : nat) : float :=
  (1 / (if (Z.of_nat n - 1 <=? 0)%Z then 0 else of_int (Z.of_nat n - 1)%Z))%float.

(** [numpy.maximum] and [numpy.minimum]: a NaN on either side wins. *)
Definition fmax (a b : float) : float :=
  if is_nan a || is_nan b then nan else if (a <? b)%float then b else a.

Definition fmin (a b : float) : float :=
  if is_nan a || is_nan b then nan else if (b <? a)%float then b else a.

Definition clip (r : float) : float := fmin (fmax r (-1)%float) 1%float.

Definition corr (a b : list float) : float :=
  let pairs := dropna a b in
  if (length pairs <? 1)%nat then nan
  else
    let x := demean (map fst pairs) in
    let y := demean (map snd pairs) in
    let k := cov_scale (length pairs) in
    let cxx := (dot x x * k)%float in
    let cyy := (dot y y * k)%float in
    let cxy := (dot x y * k)%float in
    clip (cxy / sqrt cxx / sqrt cyy)%float.

(** The ['Rating'] column as numbers. *)
Definition to_float (n : pynum) : float :=
  match n with
  | PyInt z => of_int z
  | PyFloat f => f
  end.

End Pandas.

(** Line 431: [correlation = df['Price'].corr(df['Rating'])] *)
Definition correlation (df : DataFrame) : float :=
  Pandas.corr (map Price (rows df)) (map (fun r => Pandas.to_float (Rating r)) (rows df)).

(** Lines 432-434: the insight added to [insights], if any. *)
Definition correlation_insight (df : DataFrame) : list string :=
  let correlation := correlation df in
  if (0.5 <? abs correlation)%float then
    let trend := if (0 <? correlation)%float then "positive" else "negative" in
    ["📊 Strong " ++ trend ++ " correlation between price and rating"]
  else [].

(** ** Views used by the statements *)

(** The layout a URL selects: the order of the [if]/[elif] chain. *)
Inductive layout := Books | Quotes.

Definition route (url : string) : option layout :=
  if Str.contains "books.toscrape.com" url then Some Books
  else if Str.contains "quotes.toscrape.com" url then Some Quotes
  else None.

Definition the_request (url : string) : request := mkRequest url headers 10.

Definition error_message (e : exn) : string :=
  if is_RequestException e
  then "❌ Error fetching website: " ++ str_exn e
  else "❌ Scraping error: " ++ str_exn e.

Section Views.

Context {Tag : Type} `{Bs4 Tag}.
Variable internet : nat -> request -> pyresult Response.

(** The blocks a layout looks for, and the extractor it applies. *)
Definition blocks_of (l : layout) (soup : Tag) : list Tag :=
  match l with
  | Books => find_all soup "article" "product_pod"
  | Quotes => find_all soup "div" "quote"
  end.

Definition extract (l : layout) : Tag -> pyresult product :=
  match l with
  | Books => extract_book
  | Quotes => extract_quote
  end.

(** Fetching and parsing, as the [n+1]-th request: the first three steps of
    [scrape_body] without the log. *)
Definition fetch_document (n : nat) (url : string) : pyresult Tag :=
  (response <- internet n (the_request url) ;;
   _ <- raise_for_status response ;;
   BeautifulSoup (content response) "html.parser")%py.

(** The parts of a listing that [extract_book] needs: the anchor that
    carries the title, the price as a number, and the availability. *)
Definition title_anchor (book : Tag) : pyresult Tag :=
  (h3 <- deref (find book "h3" None) ;;
   deref (find h3 "a" None))%py.

Definition price_of (book : Tag) : pyresult float :=
  (price_color <- deref (find book "p" (Some "price_color")) ;;
   Py.float (Str.replace (Str.replace (Str.strip (text price_color)) "£" "") "$" ""))%py.

Definition in_stock_of (book : Tag) : bool :=
  match find book "p" (Some "instock availability") with
  | Some tag => Str.contains "In stock" (Str.strip (text tag))
  | None => false
  end.

(** The records of the blocks that extract, in order. *)
Definition successes (f : Tag -> pyresult product) (blocks : list Tag) : list product :=
  flat_map (fun block => match f block with Return r => [r] | Raise _ => [] end) blocks.

(** The blocks that do not. *)
Definition malformed (f : Tag -> pyresult product) (blocks : list Tag) : list Tag :=
  List.filter (fun block => match f block with Return _ => false | Raise _ => true end) blocks.

End Views.

(** The closed enumeration of rating labels, as the specification words
    it: One..Five map to 1..5, anything else and no label at all to 0. *)
Definition rating_of_label (label : option string) : Z :=
  match label with
  | Some s =>
      if String.eqb s "One" then 1
      else if String.eqb s "Two" then 2
      else if String.eqb s "Three" then 3
      else if String.eqb s "Four" then 4
      else if String.eqb s "Five" then 5
      else 0
  | None => 0
  end.

(** The rating label of a rating element: the second token of its
    [class], when it has one. *)
Definition rating_label (classes : option (list string)) : option string :=
  match classes with
  | Some (_ :: label :: _) => Some label
  | _ => None
  end.

(** The invariant the specification gives for a Normalized Record, as far
    as the types leave it open: a value that is not negative and a rating
    that is an integer from 0 to 5. *)
Definition is_normalized (r : product) : bool :=
  (0 <=? Price r)%float &&
  match Rating r with
  | PyInt z => (0 <=? z) && (z <=? 5)
  | PyFloat _ => false
  end.

(** A float that is a zero of either sign or NaN: what a column that is
    zero throughout leaves of every sum and product it enters. *)
Definition zero_or_nan (f : float) : bool :=
  match Prim2SF f with
  | S754_zero _ | S754_nan => true
  | _ => false
  end.

(** ** Fixtures *)

(** Documents and networks for the examples: two shops' pages as the
    document tree above renders them. *)
Module Demo.

Definition star (label : string) : option (list string) := Some ["star-rating"; label].

Definition book1 : Dom.node := Dom.product_pod "A Light in the Attic" "£10.00" (star "Three").
Definition book2 : Dom.node := Dom.product_pod "Tipping the Velvet" "£20.00" (star "One").
Definition book3 : Dom.node := Dom.product_pod "Soumission" "£50.25" (star "Five").
Definition book4 : Dom.node := Dom.product_pod "Sharp Objects" "£47.75" (star "Four").
Definition book5 : Dom.node := Dom.product_pod "Sapiens" "£54.5" (star "Two").

(** Blocks that depart from the usual listing: a price that is no number,
    a negative price, no rating element, a rating element without a label,
    and one with a label outside the enumeration. *)
Definition bad_price : Dom.node := Dom.product_pod "The Requiem Red" "N/A" (star "One").
Definition negative_price : Dom.node := Dom.product_pod "Refund" "£-5.00" (star "Two").
Definition no_rating : Dom.node := Dom.product_pod "Unrated" "£20.00" None.
Definition bare_rating : Dom.node := Dom.product_pod "Bare" "£20.00" (Some ["star-rating"]).
Definition odd_rating : Dom.node := Dom.product_pod "Odd" "£20.00" (star "Six").

Definition quote1 : Dom.node := Dom.quote_div "The world as we have created it." "Albert Einstein".
Definition quote2 : Dom.node := Dom.quote_div "It is our choices." "J.K. Rowling".

Definition five_books : Dom.node := Dom.page [book1; book2; book3; book4; book5].
Definition two_books : Dom.node := Dom.page [book1; book2].
Definition two_books_and_a_bad_one : Dom.node := Dom.page [book1; book2; bad_price].
Definition no_blocks : Dom.node := Dom.page [].
Definition two_quotes : Dom.node := Dom.page [quote1; quote2].

Definition pages : list Dom.node :=
  [five_books; two_books; two_books_and_a_bad_one; no_blocks; two_quotes].

Definition bs4 : Bs4 Dom.node := Dom.parser pages.

(** What the parser returns for a page. *)
Definition soup (doc : Dom.node) : Dom.node := Dom.Element "[document]" None [] [doc].

Definition books_url : string := "https://books.toscrape.com/".
Definition quotes_url : string := "https://quotes.toscrape.com/".
Definition other_url : string := "https://example.com/".

(** A network on which the book shop serves [doc]. *)
Definition shop (doc : Dom.node) : nat -> request -> pyresult Response :=
  Dom.serve [(books_url, doc); (quotes_url, two_quotes); (other_url, no_blocks)].

(** The same network with a first request that times out. *)
Definition flaky (doc : Dom.node) (n : nat) (req : request) : pyresult Response :=
  match n with
  | O => Raise (mkExn Timeout "Read timed out. (read timeout=10)")
  | S _ => shop doc n req
  end.

(** The frame scraped from the two quotes. *)
Definition quotes_frame : DataFrame :=
  pd_DataFrame
    [mkProduct "Quote by Albert Einstein" 0%float (PyFloat 5%float) true "Quotes";
     mkProduct "Quote by J.K. Rowling" 0%float (PyFloat 5%float) true "Quotes"].

End Demo.

(** ** The page around the scraper *)

(** [st.session_state] as lines 172-174 fill it: the three keys are absent
    until a scrape succeeds. *)
Record Session := mkSession {
  session_df : option DataFrame;
  session_url : option string;
  session_scraped_at : option string
}.

(** What one run of the script can change: the cache behind
    [scrape_website], the requests and messages, the [st.success] notes,
    and the session. *)
Record Page := mkPage {
  page_cache : gmap (string * Z) CacheEntry;
  page_world : World;
  page_success : list string;
  page_session : Session
}.

Definition page0 : Page := mkPage ∅ world0 [] (mkSession None None None).

(** [str(n)] for a length *)
Definition str_nat (n : nat) : string := NilEmpty.string_of_uint (Nat.to_uint n).

Definition no_products_warning : string :=
  "⚠️ No products found. Try a different URL or check if the website is accessible.".

Section ScrapingLogic.

Context {Tag : Type} `{Bs4 Tag}.
Variable internet : nat -> request -> pyresult Response.

(** Lines 163-178, for a run in which the button was pressed: [now] is the
    cache's clock and [stamp] what [datetime.now().strftime(...)] gives
    after the scrape. *)
Definition start_scraping (now : Z) (stamp : string) (url : string) (max_products : Z)
    (p : Page) : pyresult unit * Page :=
  match url with
  | EmptyString =>
      (Return tt,
       mkPage (page_cache p)
              (snd (show (st_error "❌ Please enter a URL") (page_world p)))
              (page_success p) (page_session p))
  | _ =>
      match cached_scrape_website internet now url max_products
              (page_cache p) (page_world p) with
      | (Return df, cache, w) =>
          if negb (empty df) then
            (Return tt,
             mkPage cache w
               (page_success p
                ++ [("✅ Successfully scraped " ++ str_nat (len df) ++ " products!")%string])%list
               (mkSession (Some df) (Some url) (Some stamp)))
          else
            (Return tt,
             mkPage cache (snd (show (st_warning no_products_warning) w))
               (page_success p) (page_session p))
      | (Raise e, cache, w) =>
          (Raise e, mkPage cache w (page_success p) (page_session p))
      end
  end.

(** One press of the button: the clock, the time stamp, and the two
    inputs. *)
Record click := mkClick {
  click_now : Z;
  click_stamp : string;
  click_url : string;
  click_max_products : Z
}.

(** Script runs with the button pressed, one after the other. *)
Definition run_clicks (clicks : list click) (p : Page) : Page :=
  fold_left
    (fun page c =>
       snd (start_scraping (click_now c) (click_stamp c) (click_url c)
              (click_max_products c) page))
    clicks p.

End ScrapingLogic.

(** Line 181: whether the results section is drawn. *)
Definition results_shown (s : Session) : bool :=
  match session_df s with
  | Some df => negb (empty df)
  | None => false
  end.

(** What the results section reads from the session besides the frame
    (lines 341-342): an absent key would raise [KeyError]. *)
Definition report_source (s : Session) : pyresult (string * string) :=
  match session_url s, session_scraped_at s with
  | Some url, Some scraped_at => Return (url, scraped_at)
  | _, _ => Raise (mkExn OtherError "KeyError")
  end.

(** ** The OCR application *)

(** [ocr_app.py].  Its strings are handled by character, so a [str] is
    here the list of its code points.  Pillow and Tesseract are
    collaborators. *)
Module Ocr.

(** [str.isspace] for one character *)
Definition isspace (c : Z) : bool :=
  ((9 <=? c) && (c <=? 13)) || ((28 <=? c) && (c <=? 32))
  || (c =? 133) || (c =? 160) || (c =? 5760)
  || ((8192 <=? c) && (c <=? 8202))
  || (c =? 8232) || (c =? 8233) || (c =? 8239) || (c =? 8287) || (c =? 12288).

(** [text.split()]: the maximal runs of characters that are not
    whitespace.  [word] holds the current run, last character first. *)
Fixpoint words_from (word : list Z) (s : list Z) : list (list Z) :=
  match s with
  | [] => match word with [] => [] | _ => [rev word] end
  | c :: s' =>
      if isspace c then
        match word with
        | [] => words_from [] s'
        | _ => rev word :: words_from [] s'
        end
      else words_from (c :: word) s'
  end.

Definition split (s : list Z) : list (list Z) := words_from [] s.

(** [text.split(sep)] for a separator of one character: the pieces
    between its occurrences, empty ones included. *)
Fixpoint pieces_from (sep : Z) (piece : list Z) (s : list Z) : list (list Z) :=
  match s with
  | [] => [rev piece]
  | c :: s' =>
      if c =? sep then rev piece :: pieces_from sep [] s'
      else pieces_from sep (c :: piece) s'
  end.

Definition split_on (sep : Z) (s : list Z) : list (list Z) := pieces_from sep [] s.

Fixpoint lstrip (s : list Z) : list Z :=
  match s with
  | [] => []
  | c :: s' => if isspace c then lstrip s' else s
  end.

(** [s.strip()] *)
Definition strip (s : list Z) : list Z := rev (lstrip (rev (lstrip s))).

(** The truth value of a [str] or a list *)
Definition truthy {A} (l : list A) : bool :=
  match l with [] => false | _ => true end.

Definition newline : Z := 10.

(** [a / b] for integers with [0 < b]: the binary64 nearest to the
    quotient. *)
Definition truediv (a b : Z) : float :=
  if a =? 0 then 0%float
  else
    let s := 64 + Z.log2_up b in
    let n := Z.abs a * 2 ^ s in
    let sticky := if n mod b =? 0 then 0 else 1 in
    let m := 2 * (n / b) + sticky in
    SF2Prim (binary_normalize FloatOps.prec emax (if a <? 0 then - m else m)
               (- (s + 1)) false).

(** What [extract_text_from_image] uses of Pillow and pytesseract:
    - [convert img mode] for [img.convert(mode)];
    - [enhance_contrast img f] and [enhance_sharpness img f] for
      [ImageEnhance.Contrast(img).enhance(f)] and its Sharpness twin;
    - [point img f] for [img.point(f)];
    - [median_filter img size] for
      [img.filter(ImageFilter.MedianFilter(size=size))];
    - [image_to_string img config];
    - [image_to_data_conf img] for the ['conf'] list of
      [image_to_data(img, output_type=Output.DICT)], as the integers
      [int(conf)] makes of its entries. *)
Class Imaging (Image : Type) := {
  convert : Image -> string -> pyresult Image;
  enhance_contrast : Image -> float -> pyresult Image;
  enhance_sharpness : Image -> float -> pyresult Image;
  point : Image -> (Z -> Z) -> pyresult Image;
  median_filter : Image -> Z -> pyresult Image;
  image_to_string : Image -> string -> pyresult (list Z);
  image_to_data_conf : Image -> pyresult (list Z)
}.

(** The dictionary [extract_text_from_image] returns. *)
Record extraction := mkExtraction {
  text : list Z;
  word_count : nat;
  line_count : nat;
  char_count : nat;
  avg_confidence : pynum
}.

(** Line 55: [lambda p: 255 if p > 128 else 0] *)
Definition threshold (p : Z) : Z := if 128 <? p then 255 else 0.

(** Lines 64-65 *)
Definition confidences (conf : list Z) : list Z := List.filter (fun c => 0 <? c) conf.

Definition average (confidences : list Z) : pynum :=
  if truthy confidences
  then PyFloat (truediv (fold_left Z.add confidences 0) (Z.of_nat (length confidences)))
  else PyInt 0.

(** Lines 69-71 *)
Definition count_words (text : list Z) : nat := length (split text).

Definition count_lines (text : list Z) : nat :=
  length (List.filter (fun line => truthy (strip line)) (split_on newline text)).

Section ExtractText.

Context {Image : Type} `{Imaging Image}.

(** Lines 47-56 *)
Definition preprocess (img : Image) (preprocess_method : string) : pyresult Image :=
  if String.eqb preprocess_method "Grayscale (Recommended)" then convert img "L"
  else if String.eqb preprocess_method "Full Preprocessing" then
    (img <- convert img "L" ;;
     img <- enhance_contrast img 2%float ;;
     img <- enhance_sharpness img 2%float ;;
     img <- point img threshold ;;
     median_filter img 3)%py
  else Return img.

(** Lines 46-73: the body of the [try]. *)
Definition extract_body (img : Image) (preprocess_method : string) : pyresult extraction :=
  (img <- preprocess img preprocess_method ;;
   text <- image_to_string img "--oem 3 --psm 6" ;;
   conf <- image_to_data_conf img ;;
   Return {| text := text;
             word_count := count_words text;
             line_count := count_lines text;
             char_count := length text;
             avg_confidence := average (confidences conf) |})%py.

(** [extract_text_from_image(img, preprocess_method)] *)
Definition extract_text_from_image (img : Image) (preprocess_method : string)
    : M (option extraction) :=
  try_except
    (bind (lift (extract_body img preprocess_method)) (fun result => ret (Some result)))
    (fun e => bind (show (st_error ("Error: " ++ str_exn e))) (fun _ => ret None)).

End ExtractText.

(** The entity lists of [analyze_text] that the export reads. *)
Record analysis := mkAnalysis {
  emails : list string;
  phones : list string;
  dates : list string;
  amounts : list string
}.

(** [pd.DataFrame({'Type': types, 'Value': values})]: the rows, or
    [ValueError] when the columns differ in length. *)
Definition pd_DataFrame_columns (types values : list string)
    : pyresult (list (string * string)) :=
  if (length types =? length values)%nat then Return (combine types values)
  else Raise (mkExn ValueError "All arrays must be of the same length").

(** Lines 234-250: the table behind the CSV download, or nothing when
    "No entities to export" is shown. *)
Definition entities_export (a : analysis) : option (pyresult (list (string * string))) :=
  if truthy (emails a) || truthy (phones a) || truthy (dates a) then
    Some (pd_DataFrame_columns
            (repeat "Email" (length (emails a))
             ++ repeat "Phone" (length (phones a))
             ++ repeat "Date" (length (dates a)))%list
            (emails a ++ phones a ++ dates a)%list)
  else None.

End Ocr.

(** ** More fixtures *)

Module Sample.

(** An address of another host that names both shops. *)
Definition referral_url : string :=
  "https://example.com/?next=" ++ "books.toscrape.com" ++ "&also=quotes.toscrape.com".

Definition referral : nat -> request -> pyresult Response :=
  Dom.serve [(referral_url, Demo.two_books)].

(** A server that answers 404 with a page of listings as its body. *)
Definition not_found (_ : nat) (_ : request) : pyresult Response :=
  Return (mkResponse 404 (Dom.render Demo.five_books)).

(** A listing without availability whose anchor has no [title]. *)
Definition plain_listing : Dom.node :=
  Dom.Element "article" (Some ["product_pod"]) []
    [Dom.Element "p" (Some ["star-rating"; "Four"]) [] [];
     Dom.Element "h3" None [] [Dom.Element "a" None [] [Dom.Text "Untitled"]];
     Dom.Element "p" (Some ["price_color"]) [] [Dom.Text "$12.50"]].

(** The code points of an ASCII text. *)
Definition codes (s : string) : list Z :=
  map (fun c => Z.of_nat (nat_of_ascii c)) (list_ascii_of_string s).

(** A scan: the text and confidences Tesseract will report for it, and
    the operations applied to the image so far, oldest first. *)
Record scan := mkScan {
  scan_text : list Z;
  scan_conf : list Z;
  scan_ops : list string
}.

Definition applied (op : string) (img : scan) : pyresult scan :=
  Return (mkScan (scan_text img) (scan_conf img) (scan_ops img ++ [op])%list).

Definition imaging : Ocr.Imaging scan := {|
  Ocr.convert img mode := applied ("convert " ++ mode) img;
  Ocr.enhance_contrast img _ := applied "contrast" img;
  Ocr.enhance_sharpness img _ := applied "sharpness" img;
  Ocr.point img _ := applied "point" img;
  Ocr.median_filter img _ := applied "median" img;
  Ocr.image_to_string img _ := Return (scan_text img);
  Ocr.image_to_data_conf img := Return (scan_conf img)
|}.

(** An imaging stack without Tesseract installed. *)
Definition no_tesseract : Ocr.Imaging scan := {|
  Ocr.convert img mode := applied ("convert " ++ mode) img;
  Ocr.enhance_contrast img _ := applied "contrast" img;
  Ocr.enhance_sharpness img _ := applied "sharpness" img;
  Ocr.point img _ := applied "point" img;
  Ocr.median_filter img _ := applied "median" img;
  Ocr.image_to_string _ _ := Raise (mkExn OtherError "tesseract is not installed");
  Ocr.image_to_data_conf img := Return (scan_conf img)
|}.

Definition receipt : scan :=
  mkScan (codes "Total due
  $12.50

thank you
") [-1; 96; 0; 91; -1; 88] [].

End Sample.

(** * Properties *)

#[local] Existing Instance Demo.bs4.

(** ** The builtins on examples *)

Example strip_price : Str.strip "  £51.77
 " = "£51.77".
Proof. reflexivity. Qed.

Example replace_currency :
  Str.replace (Str.replace "£51.77" "£" "") "$" "" = "51.77".
Proof. reflexivity. Qed.

Example contains_books :
  Str.contains "books.toscrape.com" "https://books.toscrape.com/catalogue/page-2.html" = true.
Proof. reflexivity. Qed.

Example float_price : Py.float "51.75" = Return 51.75%float.
Proof. reflexivity. Qed.

Example float_spaces_and_exponent : Py.float " 1_250e-2 " = Return 12.5%float.
Proof. reflexivity. Qed.

Example float_not_a_number : Py.float "N/A" = Raise (Py.invalid "N/A").
Proof. reflexivity. Qed.

Example float_negative : Py.float "-5.00" = Return (-5)%float.
Proof. reflexivity. Qed.

Example slice_to_first : slice_to [1; 2; 3; 4; 5] 2 = [1; 2].
Proof. reflexivity. Qed.

Example slice_to_beyond : slice_to [1; 2; 3] 50 = [1; 2; 3].
Proof. reflexivity. Qed.

Example rating_map_three : rating_map !! "Three" = Some 3.
Proof. reflexivity. Qed.

Example extract_book1 :
  extract_book Demo.book1
  = Return (mkProduct "A Light in the Attic" 10%float (PyInt 3) true "Books").
Proof. vm_compute. reflexivity. Qed.

Example corr_perfect : Pandas.corr [1; 2; 3]%float [2; 4; 6]%float = 1%float.
Proof. vm_compute. reflexivity. Qed.

(** ** The scraper, step by step *)

Section Facts.

Context {Tag : Type} `{Bs4 Tag}.
Variable internet : nat -> request -> pyresult Response.

Lemma scrape_loop_from (f : Tag -> pyresult product) (blocks : list Tag) (acc : list product) :
  fold_left
    (fun products block =>
       match f block with
       | Return record => (products ++ [record])%list
       | Raise _ => products
       end)
    blocks acc
  = (acc ++ successes f blocks)%list.
Proof.
  revert acc.
  induction blocks as [|b blocks IH]; intros acc; simpl.
  - symmetry. apply app_nil_r.
  - rewrite IH. destruct (f b) as [r|e]; simpl.
    + now rewrite <- app_assoc.
    + reflexivity.
Qed.

(** The loop keeps the records of the blocks that extract, in order. *)
Lemma scrape_loop_successes (f : Tag -> pyresult product) (blocks : list Tag) :
  scrape_loop f blocks = successes f blocks.
Proof. unfold scrape_loop. now rewrite scrape_loop_from. Qed.

Lemma successes_app (f : Tag -> pyresult product) (l1 l2 : list Tag) :
  successes f (l1 ++ l2)%list = (successes f l1 ++ successes f l2)%list.
Proof. unfold successes. apply flat_map_app. Qed.

Lemma successes_length (f : Tag -> pyresult product) (blocks : list Tag) :
  (length (successes f blocks) <= length blocks)%nat.
Proof.
  induction blocks as [|b blocks IH]; simpl; [lia|].
  destruct (f b); simpl; lia.
Qed.

Lemma successes_all (f : Tag -> pyresult product) (blocks : list Tag) :
  Forall (fun b => exists r, f b = Return r) blocks ->
  length (successes f blocks) = length blocks.
Proof.
  induction 1 as [|b blocks [r Hr] _ IH]; simpl; [reflexivity|].
  rewrite Hr. simpl. now rewrite IH.
Qed.

Lemma successes_In (f : Tag -> pyresult product) (blocks : list Tag) (r : product) :
  In r (successes f blocks) <-> exists b, In b blocks /\ f b = Return r.
Proof.
  unfold successes. rewrite in_flat_map. split.
  - intros [b [Hb Hr]]. exists b. split; [exact Hb|].
    destruct (f b) as [r'|e]; simpl in Hr; [|contradiction].
    destruct Hr as [->|[]]. reflexivity.
  - intros [b [Hb Hr]]. exists b. split; [exact Hb|].
    rewrite Hr. now left.
Qed.

Lemma slice_to_length {A} (l : list A) (n : Z) :
  0 <= n -> (Z.of_nat (length (slice_to l n)) <= n)%Z.
Proof.
  intros Hn. unfold slice_to.
  destruct (0 <=? n) eqn:E; [|lia].
  rewrite length_firstn. lia.
Qed.

Lemma slice_to_all {A} (l : list A) (n : Z) :
  (Z.of_nat (length l) <= n)%Z -> slice_to l n = l.
Proof.
  intros Hn. unfold slice_to.
  destruct (0 <=? n) eqn:E; [|lia].
  apply firstn_all2. lia.
Qed.

(** One run of [scrape_website]: the request is logged, then the outcome
    follows the fetch and the layout. *)
Lemma scrape_website_run (url : string) (max_items : Z) (w : World) :
  scrape_website internet url max_items w =
  match fetch_document internet (length (sent w)) url with
  | Raise e =>
      (Return pd_DataFrame_empty,
       mkWorld (sent w ++ [the_request url])%list
               (shown w ++ [st_error (error_message e)])%list)
  | Return soup =>
      match route url with
      | Some l =>
          (Return (pd_DataFrame
                     (successes (extract l) (slice_to (blocks_of l soup) max_items))),
           mkWorld (sent w ++ [the_request url])%list (shown w))
      | None =>
          (Return pd_DataFrame_empty,
           mkWorld (sent w ++ [the_request url])%list
                   (shown w ++ [st_warning unsupported_warning])%list)
      end
  end.
Proof.
  unfold scrape_website, try_except, scrape_body, bind, requests_get, lift,
    fetch_document, the_request, route, scrape_handler, error_message, show, ret.
  simpl.
  destruct (internet (length (sent w)) (mkRequest url headers 10)) as [resp|e]; simpl.
  - destruct (raise_for_status resp) as [[]|e]; simpl.
    + destruct (BeautifulSoup (content resp) "html.parser") as [soup|e]; simpl.
      * destruct (Str.contains "books.toscrape.com" url); simpl.
        { now rewrite scrape_loop_successes. }
        destruct (Str.contains "quotes.toscrape.com" url); simpl.
        { now rewrite scrape_loop_successes. }
        reflexivity.
      * destruct (is_RequestException e); reflexivity.
    + destruct (is_RequestException e); reflexivity.
  - destruct (is_RequestException e); reflexivity.
Qed.

End Facts.


(** ** Totality of [scrape_website] *)

Section Totality.

Context {Tag : Type} `{Bs4 Tag}.
Variable internet : nat -> request -> pyresult Response.

(** C10.  [scrape_website] is total at its public interface: for every URL
    and [max_items], whatever the network and the parser answer, the call
    returns a DataFrame and never raises; and whenever its body raises (a
    transport error, an HTTP error status, a parse error or anything else)
    the exception is caught, reported with [st.error], and the value
    returned is the empty DataFrame. *)
Theorem scrape_website_total (url : string) (max_items : Z) (w : World) :
  exists df w',
    scrape_website internet url max_items w = (Return df, w') /\
    (forall e w1,
        scrape_body internet url max_items w = (Raise e, w1) ->
        df = pd_DataFrame_empty /\
        sent w' = sent w1 /\
        shown w' = (shown w1 ++ [st_error (error_message e)])%list).
Proof.
  unfold scrape_website, try_except.
  destruct (scrape_body internet url max_items w) as [[df|e] w1] eqn:Hbody.
  - exists df, w1. split; [reflexivity|].
    intros e w2 Habs. discriminate Habs.
  - unfold scrape_handler, error_message, bind, show, ret.
    destruct (is_RequestException e) eqn:Hcls; simpl;
      eexists; eexists; (split; [reflexivity|]);
      intros e' w2 Heq; injection Heq as <- <-; simpl; rewrite ?Hcls; auto.
Qed.

End Totality.

(** C10, witness: a request that times out; the exception raised by
    [requests.get] is caught and the call returns the empty frame. *)
Lemma scrape_website_total_witness :
  scrape_body (Demo.flaky Demo.two_books) Demo.books_url 10 world0
  = (Raise (mkExn Timeout "Read timed out. (read timeout=10)"),
     mkWorld [the_request Demo.books_url] []) /\
  exists w',
    scrape_website (Demo.flaky Demo.two_books) Demo.books_url 10 world0
    = (Return pd_DataFrame_empty, w') /\
    shown w' = [st_error "❌ Error fetching website: Read timed out. (read timeout=10)"].
Proof.
  split; [vm_compute; reflexivity|].
  destruct (scrape_website_total (Demo.flaky Demo.two_books) Demo.books_url 10 world0)
    as [df [w' [Hrun Hcaught]]].
  destruct (Hcaught (mkExn Timeout "Read timed out. (read timeout=10)")
              (mkWorld [the_request Demo.books_url] []))
    as [Hdf [_ Hshown]]; [vm_compute; reflexivity|].
  exists w'. subst df. split; [exact Hrun|exact Hshown].
Defined.

(** ** Unsupported sources *)

Section Unsupported.

Context {Tag : Type} `{Bs4 Tag}.
Variable internet : nat -> request -> pyresult Response.

(** C1, as amended.  For every source identifier that matches no known
    layout pattern, [scrape_website] invokes the transport exactly once:
    the fetch comes before the layout check.  It then returns the empty
    DataFrame; when the fetch and the parse succeed the unsupported source
    is reported with the warning, and when they fail the failure is
    reported with [st.error] instead. *)
Theorem unsupported_source_fetches_once (url : string) (max_items : Z) (w : World) :
  route url = None ->
  exists w',
    scrape_website internet url max_items w = (Return pd_DataFrame_empty, w') /\
    sent w' = (sent w ++ [the_request url])%list /\
    (forall soup,
        fetch_document internet (length (sent w)) url = Return soup ->
        shown w' = (shown w ++ [st_warning unsupported_warning])%list) /\
    (forall e,
        fetch_document internet (length (sent w)) url = Raise e ->
        shown w' = (shown w ++ [st_error (error_message e)])%list).
Proof.
  intros Hroute. rewrite scrape_website_run, Hroute.
  destruct (fetch_document internet (length (sent w)) url) as [soup|e];
    eexists; (split; [reflexivity|]); simpl;
    (split; [reflexivity|]); split; intros x Hx;
    first [discriminate Hx | injection Hx as <-; reflexivity].
Qed.

End Unsupported.

(** C1, witness: the address of no known shop, on a network that serves
    it. *)
Lemma unsupported_source_fetches_once_witness :
  exists w',
    scrape_website (Demo.shop Demo.no_blocks) Demo.other_url 50 world0
    = (Return pd_DataFrame_empty, w') /\
    sent w' = [the_request Demo.other_url] /\
    shown w' = [st_warning unsupported_warning].
Proof.
  destruct (unsupported_source_fetches_once (Demo.shop Demo.no_blocks)
              Demo.other_url 50 world0 eq_refl)
    as [w' [Hrun [Hsent [Hwarn _]]]].
  exists w'. split; [exact Hrun|]. split; [exact Hsent|].
  exact (Hwarn _ eq_refl).
Defined.

(** C1, counterexample: an identifier that matches no known pattern is
    still fetched; the log of requests holds one entry after the run, not
    none. *)
Lemma unsupported_source_is_fetched :
  route Demo.other_url = None /\
  scrape_website (Demo.shop Demo.no_blocks) Demo.other_url 50 world0
  = (Return pd_DataFrame_empty,
     mkWorld [the_request Demo.other_url] [st_warning unsupported_warning]) /\
  length (sent (snd (scrape_website (Demo.shop Demo.no_blocks) Demo.other_url 50 world0)))
  = 1%nat.
Proof. repeat split; vm_compute; reflexivity. Qed.

(** ** Malformed blocks *)

Section Malformed.

Context {Tag : Type} `{Bs4 Tag}.
Variable internet : nat -> request -> pyresult Response.

(** C2, as amended.  For every batch that holds exactly one malformed
    block among K valid ones, all within the first [max_items] blocks,
    [scrape_website] returns a DataFrame of exactly the K valid records in
    document order and reports no error: the batch does not fail.  The
    malformed block is dropped silently; the value returned is the
    DataFrame alone, the one the same document without that block gives,
    and no skip count comes with it. *)
Theorem one_malformed_block_is_dropped
    (url : string) (max_items : Z) (w : World) (l : layout) (soup : Tag)
    (pre post : list Tag) (bad : Tag) :
  route url = Some l ->
  fetch_document internet (length (sent w)) url = Return soup ->
  blocks_of l soup = (pre ++ bad :: post)%list ->
  Forall (fun b => exists r, extract l b = Return r) (pre ++ post)%list ->
  (exists e, extract l bad = Raise e) ->
  Z.of_nat (length (pre ++ bad :: post)%list) <= max_items ->
  exists df w',
    scrape_website internet url max_items w = (Return df, w') /\
    rows df = successes (extract l) (pre ++ post)%list /\
    len df = length (pre ++ post)%list /\
    df = pd_DataFrame (successes (extract l) (slice_to (pre ++ post)%list max_items)) /\
    shown w' = shown w.
Proof.
  intros Hroute Hfetch Hblocks Hvalid [e Hbad] Hmax.
  rewrite scrape_website_run, Hfetch, Hroute, Hblocks.
  rewrite slice_to_all by exact Hmax.
  assert (Hdrop : successes (extract l) (pre ++ bad :: post)%list
                  = successes (extract l) (pre ++ post)%list).
  { rewrite !successes_app. simpl. now rewrite Hbad. }
  eexists; eexists. split; [reflexivity|]. simpl.
  split; [exact Hdrop|].
  split; [unfold len; simpl; rewrite Hdrop; now apply successes_all|].
  split; [|reflexivity].
  rewrite slice_to_all.
  - unfold pd_DataFrame. now rewrite Hdrop.
  - rewrite length_app in *. simpl in Hmax. lia.
Qed.

End Malformed.

(** C2, witness: prices 10.00, 20.00 and "N/A" with [max_items = 10]; the
    frame has the two priced books. *)
Lemma one_malformed_block_is_dropped_witness :
  exists df w',
    scrape_website (Demo.shop Demo.two_books_and_a_bad_one) Demo.books_url 10 world0
    = (Return df, w') /\
    map Price (rows df) = [10%float; 20%float] /\
    len df = 2%nat /\
    shown w' = [].
Proof.
  destruct (one_malformed_block_is_dropped
              (Demo.shop Demo.two_books_and_a_bad_one) Demo.books_url 10 world0
              Books (Demo.soup Demo.two_books_and_a_bad_one)
              [Demo.book1; Demo.book2] [] Demo.bad_price)
    as [df [w' [Hrun [Hrows [Hlen [_ Hshown]]]]]].
  - reflexivity.
  - reflexivity.
  - reflexivity.
  - repeat constructor; eexists; vm_compute; reflexivity.
  - eexists; vm_compute; reflexivity.
  - simpl; lia.
  - exists df, w'. split; [exact Hrun|].
    split; [rewrite Hrows; vm_compute; reflexivity|].
    split; [exact Hlen|exact Hshown].
Defined.

(** C2, counterexample: the page with one malformed block and the page
    without it give the same value and the same effects, though one block
    was skipped on the first and none on the second.  Nothing returned
    tells the two apart, so no skip count is part of the result. *)
Lemma skip_count_is_not_returned :
  length (malformed (extract Books)
            (blocks_of Books (Demo.soup Demo.two_books_and_a_bad_one))) = 1%nat /\
  length (malformed (extract Books) (blocks_of Books (Demo.soup Demo.two_books))) = 0%nat /\
  scrape_website (Demo.shop Demo.two_books_and_a_bad_one) Demo.books_url 10 world0
  = scrape_website (Demo.shop Demo.two_books) Demo.books_url 10 world0.
Proof. repeat split; vm_compute; reflexivity. Qed.

(** ** Empty results *)

Section EmptyResult.

Context {Tag : Type} `{Bs4 Tag}.
Variable internet : nat -> request -> pyresult Response.

(** C4, as amended.  For every supported descriptor whose document is
    fetched and parsed but yields no record, [scrape_website] returns the
    empty DataFrame, the very value it returns for an unsupported source.
    The two outcomes differ only beside the returned value: the
    unsupported source adds a warning to the page, the empty result adds
    nothing. *)
Theorem empty_result_equals_unsupported
    (url url' : string) (max_items : Z) (w : World) (l : layout) (soup soup' : Tag) :
  route url = Some l ->
  fetch_document internet (length (sent w)) url = Return soup ->
  successes (extract l) (slice_to (blocks_of l soup) max_items) = [] ->
  route url' = None ->
  fetch_document internet (length (sent w)) url' = Return soup' ->
  exists w1 w1',
    scrape_website internet url max_items w = (Return pd_DataFrame_empty, w1) /\
    scrape_website internet url' max_items w = (Return pd_DataFrame_empty, w1') /\
    shown w1 = shown w /\
    shown w1' = (shown w ++ [st_warning unsupported_warning])%list.
Proof.
  intros Hroute Hfetch Hnone Hroute' Hfetch'.
  rewrite !scrape_website_run, Hfetch, Hfetch', Hroute, Hroute', Hnone.
  eexists; eexists. repeat split; reflexivity.
Qed.

End EmptyResult.

(** C4, witness: the book shop serving a page without listings, and an
    address of no known shop. *)
Lemma empty_result_equals_unsupported_witness :
  exists w1 w1',
    scrape_website (Demo.shop Demo.no_blocks) Demo.books_url 50 world0
    = (Return pd_DataFrame_empty, w1) /\
    scrape_website (Demo.shop Demo.no_blocks) Demo.other_url 50 world0
    = (Return pd_DataFrame_empty, w1') /\
    shown w1 = [] /\
    shown w1' = [st_warning unsupported_warning].
Proof.
  exact (empty_result_equals_unsupported (Demo.shop Demo.no_blocks)
           Demo.books_url Demo.other_url 50 world0 Books
           (Demo.soup Demo.no_blocks) (Demo.soup Demo.no_blocks)
           eq_refl eq_refl eq_refl eq_refl eq_refl).
Defined.

(** C4, counterexample: a supported shop whose page has no listing, and
    one whose only listing is malformed, return what an unsupported
    address returns; a caller holding the value alone (an empty frame in
    each case) cannot tell which it was. *)
Lemma empty_result_is_not_distinguishable :
  route Demo.books_url = Some Books /\
  route Demo.other_url = None /\
  fst (scrape_website (Demo.shop Demo.no_blocks) Demo.books_url 50 world0)
  = fst (scrape_website (Demo.shop Demo.no_blocks) Demo.other_url 50 world0) /\
  fst (scrape_website (Demo.shop (Dom.page [Demo.bad_price])) Demo.books_url 50 world0)
  = fst (scrape_website (Demo.shop Demo.no_blocks) Demo.other_url 50 world0) /\
  fst (scrape_website (Demo.shop Demo.no_blocks) Demo.other_url 50 world0)
  = Return pd_DataFrame_empty /\
  empty pd_DataFrame_empty = true.
Proof. repeat split; vm_compute; reflexivity. Qed.

(** ** Truncation *)

Section Truncation.

Context {Tag : Type} `{Bs4 Tag}.
Variable internet : nat -> request -> pyresult Response.

(** C6.  For every [max_items = N] (a count, so [0 <= N]) and every
    document, the returned frame has at most N rows.  The blocks are cut
    to the first N before any is extracted, in document order: the rows
    are the records of the first N blocks that extract.  With N = 1 on a
    document whose first block is valid, exactly the record of the first
    block is returned. *)
Theorem record_set_bounded_by_max_items (url : string) (max_items : Z) (w : World) :
  0 <= max_items ->
  exists df w',
    scrape_website internet url max_items w = (Return df, w') /\
    Z.of_nat (len df) <= max_items /\
    (forall l soup,
        route url = Some l ->
        fetch_document internet (length (sent w)) url = Return soup ->
        rows df = successes (extract l) (firstn (Z.to_nat max_items) (blocks_of l soup))) /\
    (forall l soup first rest r,
        route url = Some l ->
        fetch_document internet (length (sent w)) url = Return soup ->
        blocks_of l soup = first :: rest ->
        extract l first = Return r ->
        max_items = 1 ->
        rows df = [r]).
Proof.
  intros Hmax. rewrite scrape_website_run.
  assert (Hslice : forall l soup,
             slice_to (blocks_of l soup) max_items
             = firstn (Z.to_nat max_items) (blocks_of l soup)).
  { intros l soup. unfold slice_to. destruct (0 <=? max_items) eqn:E; [reflexivity|lia]. }
  destruct (fetch_document internet (length (sent w)) url) as [soup|e].
  - destruct (route url) as [l|].
    + eexists; eexists. split; [reflexivity|]. unfold len. simpl.
      split; [|split].
      * pose proof (successes_length (extract l) (slice_to (blocks_of l soup) max_items)).
        pose proof (slice_to_length (blocks_of l soup) max_items Hmax). lia.
      * intros l' soup' Hl Hs. injection Hl as <-. injection Hs as <-.
        now rewrite Hslice.
      * intros l' soup' first rest r Hl Hs Hblocks Hfirst ->.
        injection Hl as <-. injection Hs as <-.
        rewrite Hslice, Hblocks. simpl. rewrite Hfirst. reflexivity.
    + eexists; eexists. split; [reflexivity|]. unfold len. simpl.
      split; [lia|]. split; intros; discriminate.
  - eexists; eexists. split; [reflexivity|]. unfold len. simpl.
    split; [lia|]. split; intros; discriminate.
Qed.

End Truncation.

(** C6, witness: [max_items = 1] on a page of five valid listings gives
    the record of the first. *)
Lemma record_set_bounded_by_max_items_witness :
  exists df w',
    scrape_website (Demo.shop Demo.five_books) Demo.books_url 1 world0 = (Return df, w') /\
    rows df = [mkProduct "A Light in the Attic" 10%float (PyInt 3) true "Books"] /\
    length (blocks_of Books (Demo.soup Demo.five_books)) = 5%nat /\
    length (successes (extract Books) (blocks_of Books (Demo.soup Demo.five_books))) = 5%nat.
Proof.
  destruct (record_set_bounded_by_max_items (Demo.shop Demo.five_books)
              Demo.books_url 1 world0 ltac:(lia))
    as [df [w' [Hrun [_ [_ Hfirst]]]]].
  exists df, w'. split; [exact Hrun|].
  split; [|split; vm_compute; reflexivity].
  apply (Hfirst Books (Demo.soup Demo.five_books) Demo.book1
           [Demo.book2; Demo.book3; Demo.book4; Demo.book5]);
    vm_compute; reflexivity.
Defined.

(** ** The extractors *)

Lemma rating_map_get (label : string) :
  get_default (rating_map !! label) 0 = rating_of_label (Some label).
Proof.
  unfold rating_map, rating_of_label.
  repeat match goal with
         | |- context [String.eqb label ?s] =>
             destruct (String.eqb_spec label s) as [->|?];
             [reflexivity | rewrite lookup_insert_ne by congruence]
         end.
  now rewrite lookup_empty.
Qed.

Lemma rating_of_label_range (label : option string) :
  0 <= rating_of_label label <= 5.
Proof.
  unfold rating_of_label. destruct label as [s|]; [|lia].
  repeat (destruct (String.eqb s _); [lia|]). lia.
Qed.

Section Extractors.

Context {Tag : Type} `{Bs4 Tag}.

(** The rating [extract_book] computes from the class of the rating
    element is the enumeration's value for its label. *)
Lemma rating_of_class (classes : option (list string)) :
  (if (1 <? length (get_default classes []))%nat
   then get_default (rating_map !! nth 1 (get_default classes []) "") 0
   else 0)
  = rating_of_label (rating_label classes).
Proof.
  destruct classes as [[|c0 [|c1 rest]]|]; simpl; try reflexivity.
  apply rating_map_get.
Qed.

(** [extract_book] in terms of its parts. *)
Lemma extract_book_parts (book : Tag) :
  extract_book book =
  (a <- title_anchor book ;;
   price <- price_of book ;;
   rating_element <- deref (find book "p" (Some "star-rating")) ;;
   Return {| Title := get_default (get_attr a "title") "N/A";
             Price := price;
             Rating := PyInt (rating_of_label (rating_label (get_class rating_element)));
             In_Stock := in_stock_of book;
             Category := "Books" |})%py.
Proof.
  unfold extract_book, title_anchor, price_of, in_stock_of.
  destruct (find book "h3" None) as [h3|]; simpl; [|reflexivity].
  destruct (find h3 "a" None) as [a|]; simpl; [|reflexivity].
  destruct (find book "p" (Some "price_color")) as [pc|]; simpl; [|reflexivity].
  destruct (Py.float _) as [price|e]; simpl; [|reflexivity].
  destruct (find book "p" (Some "star-rating")) as [elem|]; simpl; [|reflexivity].
  now rewrite rating_of_class.
Qed.

End Extractors.

Section Ratings.

Context {Tag : Type} `{Bs4 Tag}.

(** C8, as amended.  For every content block whose rating element is
    present, the rating label (the second token of the element's class) is
    mapped through the closed enumeration One..Five to 1..5, and a label
    that is unrecognised or absent yields rating 0 without failing the
    record: with the title anchor and a numeric price in place the record
    is produced whatever the label.  What fails a record is a missing
    title anchor, or a price that is missing or not numeric. *)
Theorem rating_label_is_lenient (book : Tag) :
  (forall a price rating_element,
      title_anchor book = Return a ->
      price_of book = Return price ->
      find book "p" (Some "star-rating") = Some rating_element ->
      extract_book book
      = Return {| Title := get_default (get_attr a "title") "N/A";
                  Price := price;
                  Rating := PyInt (rating_of_label (rating_label (get_class rating_element)));
                  In_Stock := in_stock_of book;
                  Category := "Books" |}
      /\ 0 <= rating_of_label (rating_label (get_class rating_element)) <= 5) /\
  (forall e, title_anchor book = Raise e -> extract_book book = Raise e) /\
  (forall a e,
      title_anchor book = Return a ->
      price_of book = Raise e ->
      extract_book book = Raise e).
Proof.
  rewrite extract_book_parts. split; [|split].
  - intros a price rating_element Ha Hprice Hrating.
    rewrite Ha, Hprice, Hrating. split; [reflexivity|].
    apply rating_of_label_range.
  - intros e He. now rewrite He.
  - intros a e Ha He. now rewrite Ha, He.
Qed.

(** C7, as amended.  Every record an extractor produces carries all five
    fields, with the category of its layout.  On the books layout the
    rating is an integer in [0,5] and the price is the float read from the
    price text, whatever its sign; on the quotes layout the price is 0.0,
    the rating is the float 5.0 and the item is in stock.  A block that
    cannot populate every field is dropped entirely: the rows of a batch
    are exactly the records of the blocks that extracted in full, and
    every block is either recorded or dropped. *)
Theorem extracted_records_are_complete (l : layout) (blocks : list Tag) :
  (forall block r,
      extract_book block = Return r ->
      Category r = "Books" /\
      price_of block = Return (Price r) /\
      exists z, Rating r = PyInt z /\ 0 <= z <= 5) /\
  (forall block r,
      extract_quote block = Return r ->
      Category r = "Quotes" /\ Price r = 0%float /\
      Rating r = PyFloat 5%float /\ In_Stock r = true) /\
  (forall r,
      In r (scrape_loop (extract l) blocks) <->
      exists block, In block blocks /\ extract l block = Return r) /\
  (length (scrape_loop (extract l) blocks) + length (malformed (extract l) blocks)
   = length blocks)%nat.
Proof.
  split; [|split; [|split]].
  - intros block r. rewrite extract_book_parts.
    destruct (title_anchor block) as [a|e]; simpl; [|discriminate].
    destruct (price_of block) as [price|e]; simpl; [|discriminate].
    destruct (find block "p" (Some "star-rating")) as [elem|]; simpl; [|discriminate].
    intros Hr. injection Hr as <-. simpl.
    split; [reflexivity|]. split; [reflexivity|].
    eexists. split; [reflexivity|]. apply rating_of_label_range.
  - intros block r. unfold extract_quote.
    destruct (find block "span" (Some "text")) as [span|]; simpl; [|discriminate].
    destruct (find block "small" (Some "author")) as [small|]; simpl; [|discriminate].
    intros Hr. injection Hr as <-. simpl. repeat split.
  - intros r. rewrite scrape_loop_successes. apply successes_In.
  - rewrite scrape_loop_successes. unfold successes, malformed.
    induction blocks as [|b bs IH]; simpl; [reflexivity|].
    destruct (extract l b); simpl; rewrite ?length_app; simpl; lia.
Qed.

End Ratings.

(** C8, witness: a rating element without a label and one with a label
    outside the enumeration give rating 0, and the record is produced. *)
Lemma rating_label_is_lenient_witness :
  rating_label (get_class (Dom.Element "p" (Some ["star-rating"]) [] [])) = None /\
  (exists r, extract_book Demo.bare_rating = Return r /\ Rating r = PyInt 0) /\
  rating_label (get_class (Dom.Element "p" (Some ["star-rating"; "Six"]) [] [])) = Some "Six" /\
  (exists r, extract_book Demo.odd_rating = Return r /\ Rating r = PyInt 0).
Proof.
  destruct (rating_label_is_lenient Demo.bare_rating) as [Hbare _].
  destruct (rating_label_is_lenient Demo.odd_rating) as [Hodd _].
  destruct (Hbare (Dom.Element "a" None [("title", "Bare")] [Dom.Text "Bare"])
              20%float (Dom.Element "p" (Some ["star-rating"]) [] []))
    as [Hr1 _]; try (vm_compute; reflexivity).
  destruct (Hodd (Dom.Element "a" None [("title", "Odd")] [Dom.Text "Odd"])
              20%float (Dom.Element "p" (Some ["star-rating"; "Six"]) [] []))
    as [Hr2 _]; try (vm_compute; reflexivity).
  split; [reflexivity|]. split; [eexists; split; [exact Hr1|reflexivity]|].
  split; [reflexivity|]. eexists; split; [exact Hr2|reflexivity].
Defined.

(** C8, counterexample: two listings with their title in place that
    produce no record.  The first has a recognised label and a price that
    is no number; the second has a numeric price and no rating at all, and
    fails on it instead of getting rating 0. *)
Lemma record_fails_with_title_present :
  (exists a, title_anchor Demo.bad_price = Return a) /\
  extract_book Demo.bad_price = Raise (Py.invalid "N/A") /\
  (exists a, title_anchor Demo.no_rating = Return a) /\
  price_of Demo.no_rating = Return 20%float /\
  find Demo.no_rating "p" (Some "star-rating") = None /\
  extract_book Demo.no_rating
  = Raise (mkExn AttributeError "'NoneType' object has no attribute").
Proof.
  repeat split; try (eexists; vm_compute; reflexivity); vm_compute; reflexivity.
Qed.

(** C7, witness: the page with two priced books and one without a price
    gives two complete records and one dropped block. *)
Lemma extracted_records_are_complete_witness :
  length (scrape_loop (extract Books) [Demo.book1; Demo.book2; Demo.bad_price]) = 2%nat /\
  length (malformed (extract Books) [Demo.book1; Demo.book2; Demo.bad_price]) = 1%nat /\
  exists z, Rating (mkProduct "A Light in the Attic" 10%float (PyInt 3) true "Books") = PyInt z
            /\ 0 <= z <= 5.
Proof.
  destruct (extracted_records_are_complete Books [Demo.book1; Demo.book2; Demo.bad_price])
    as [Hbook [_ [_ Hcount]]].
  destruct (Hbook Demo.book1 (mkProduct "A Light in the Attic" 10%float (PyInt 3) true "Books"))
    as [_ [_ Hrating]]; [vm_compute; reflexivity|].
  split; [vm_compute; reflexivity|]. split; [vm_compute; reflexivity|exact Hrating].
Defined.

(** C7, counterexample: a listing priced "£-5.00" gives a record whose
    value is negative, and every quote gives a record whose rating is the
    float 5.0 and no integer; neither satisfies the invariant. *)
Lemma record_invariant_fails :
  extract_book Demo.negative_price
  = Return (mkProduct "Refund" (-5)%float (PyInt 2) true "Books") /\
  is_normalized (mkProduct "Refund" (-5)%float (PyInt 2) true "Books") = false /\
  extract_quote Demo.quote1
  = Return (mkProduct "Quote by Albert Einstein" 0%float (PyFloat 5%float) true "Quotes") /\
  is_normalized
    (mkProduct "Quote by Albert Einstein" 0%float (PyFloat 5%float) true "Quotes") = false.
Proof. repeat split; vm_compute; reflexivity. Qed.

(** ** The cache *)

Section Cache.

Context {Tag : Type} `{Bs4 Tag}.
Variable internet : nat -> request -> pyresult Response.

(** Every run returns a frame and sends exactly one request. *)
Lemma scrape_website_returns (url : string) (max_items : Z) (w : World) :
  exists df w',
    scrape_website internet url max_items w = (Return df, w') /\
    sent w' = (sent w ++ [the_request url])%list.
Proof.
  rewrite scrape_website_run.
  destruct (fetch_document internet (length (sent w)) url) as [soup|e];
    [destruct (route url) as [l|]|]; eexists; eexists; split; reflexivity.
Qed.

(** A run that ends in an error returns the empty frame. *)
Lemma scrape_website_error (url : string) (max_items : Z) (w : World) :
  route url = None \/ (exists e, fetch_document internet (length (sent w)) url = Raise e) ->
  exists w', scrape_website internet url max_items w = (Return pd_DataFrame_empty, w').
Proof.
  rewrite scrape_website_run. intros [Hroute|[e He]].
  - rewrite Hroute.
    destruct (fetch_document internet (length (sent w)) url); eexists; reflexivity.
  - rewrite He. eexists; reflexivity.
Qed.

Lemma cache_miss_recomputes (now : Z) (url : string) (max_items : Z)
    (cache : gmap (string * Z) CacheEntry) (w : World) (df : DataFrame) (w' : World) :
  cache_hit 3600 now (url, max_items) cache = false ->
  scrape_website internet url max_items w = (Return df, w') ->
  cached_scrape_website internet now url max_items cache w
  = (Return df, <[(url, max_items) := mkCacheEntry df now]> cache, w').
Proof.
  unfold cached_scrape_website, get_or_compute, cache_hit. intros Hmiss Hrun.
  rewrite Hrun.
  destruct (cache !! (url, max_items)) as [entry|]; [|reflexivity].
  now rewrite Hmiss.
Qed.

Lemma cache_hit_returns (now : Z) (url : string) (max_items : Z)
    (cache : gmap (string * Z) CacheEntry) (w : World) (entry : CacheEntry) :
  cache !! (url, max_items) = Some entry ->
  now - created_at entry < 3600 ->
  cached_scrape_website internet now url max_items cache w
  = (Return (value entry), cache, w).
Proof.
  unfold cached_scrape_website, get_or_compute, fresh. intros Hentry Hfresh.
  rewrite Hentry.
  destruct (now - created_at entry <? 3600) eqn:E; [reflexivity|lia].
Qed.

(** C9.  For every key (identifier, max_items) that the cache does not
    hold at the first call, two calls with that key, the second less than
    the TTL of 3600 seconds after the first, run the underlying function
    exactly once: the first call has the value and the effects of one run
    of [scrape_website] (one request sent), and the second returns the
    stored frame and changes neither the world nor the cache. *)
Theorem second_call_within_ttl_is_cached (url : string) (max_items : Z)
    (cache : gmap (string * Z) CacheEntry) (w : World) (t1 t2 : Z) :
  cache_hit 3600 t1 (url, max_items) cache = false ->
  t2 - t1 < 3600 ->
  exists df cache1 w1,
    scrape_website internet url max_items w = (Return df, w1) /\
    cached_scrape_website internet t1 url max_items cache w = (Return df, cache1, w1) /\
    cached_scrape_website internet t2 url max_items cache1 w1 = (Return df, cache1, w1) /\
    sent w1 = (sent w ++ [the_request url])%list.
Proof.
  intros Hmiss Hwindow.
  destruct (scrape_website_returns url max_items w) as [df [w1 [Hrun Hsent]]].
  exists df, (<[(url, max_items) := mkCacheEntry df t1]> cache), w1.
  split; [exact Hrun|]. split; [now apply cache_miss_recomputes|].
  split; [|exact Hsent].
  apply (cache_hit_returns t2 url max_items _ w1 (mkCacheEntry df t1)).
  - apply lookup_insert_eq.
  - exact Hwindow.
Qed.

(** C3, as amended.  For every descriptor whose pipeline run ends in an
    error (a transport failure or an unsupported source), [scrape_website]
    returns the empty DataFrame as an ordinary value, and the cache stores
    it under the key like any other result: the next request with the same
    (identifier, max_items) key within the TTL returns the cached empty
    DataFrame without running the pipeline again; the pipeline is run
    again only once the entry has expired. *)
Theorem error_results_are_cached (url : string) (max_items : Z)
    (cache : gmap (string * Z) CacheEntry) (w : World) (t1 : Z) :
  cache_hit 3600 t1 (url, max_items) cache = false ->
  route url = None \/ (exists e, fetch_document internet (length (sent w)) url = Raise e) ->
  exists cache1 w1,
    cached_scrape_website internet t1 url max_items cache w
    = (Return pd_DataFrame_empty, cache1, w1) /\
    cache1 !! (url, max_items) = Some (mkCacheEntry pd_DataFrame_empty t1) /\
    (forall t2,
        t2 - t1 < 3600 ->
        cached_scrape_website internet t2 url max_items cache1 w1
        = (Return pd_DataFrame_empty, cache1, w1)) /\
    (forall t2,
        3600 <= t2 - t1 ->
        exists df cache2 w2,
          cached_scrape_website internet t2 url max_items cache1 w1
          = (Return df, cache2, w2) /\
          scrape_website internet url max_items w1 = (Return df, w2) /\
          sent w2 = (sent w1 ++ [the_request url])%list).
Proof.
  intros Hmiss Herror.
  destruct (scrape_website_error url max_items w Herror) as [w1 Hrun].
  exists (<[(url, max_items) := mkCacheEntry pd_DataFrame_empty t1]> cache), w1.
  split; [now apply cache_miss_recomputes|].
  split; [apply lookup_insert_eq|].
  split.
  - intros t2 Hwindow.
    apply (cache_hit_returns t2 url max_items _ w1 (mkCacheEntry pd_DataFrame_empty t1)).
    + apply lookup_insert_eq.
    + exact Hwindow.
  - intros t2 Hexpired.
    destruct (scrape_website_returns url max_items w1) as [df [w2 [Hrun2 Hsent2]]].
    exists df, (<[(url, max_items) := mkCacheEntry df t2]>
                  (<[(url, max_items) := mkCacheEntry pd_DataFrame_empty t1]> cache)), w2.
    split; [|split; [exact Hrun2|exact Hsent2]].
    apply cache_miss_recomputes; [|exact Hrun2].
    unfold cache_hit, fresh. rewrite lookup_insert_eq. simpl.
    destruct (t2 - t1 <? 3600) eqn:E; [lia|reflexivity].
Qed.

End Cache.

(** C9, witness: a first call on an empty cache at time 0 and a second
    one ten minutes later. *)
Lemma second_call_within_ttl_is_cached_witness :
  exists df cache1 w1,
    cached_scrape_website (Demo.shop Demo.two_books) 0 Demo.books_url 10 ∅ world0
    = (Return df, cache1, w1) /\
    cached_scrape_website (Demo.shop Demo.two_books) 600 Demo.books_url 10 cache1 w1
    = (Return df, cache1, w1) /\
    sent w1 = [the_request Demo.books_url].
Proof.
  destruct (second_call_within_ttl_is_cached (Demo.shop Demo.two_books)
              Demo.books_url 10 ∅ world0 0 600)
    as [df [cache1 [w1 [_ [Hfirst [Hsecond Hsent]]]]]].
  - reflexivity.
  - lia.
  - exists df, cache1, w1. split; [exact Hfirst|]. split; [exact Hsecond|exact Hsent].
Defined.

(** C3, witness: the first request times out; the empty frame is stored
    and served again a minute later. *)
Lemma error_results_are_cached_witness :
  exists cache1 w1,
    cached_scrape_website (Demo.flaky Demo.two_books) 0 Demo.books_url 10 ∅ world0
    = (Return pd_DataFrame_empty, cache1, w1) /\
    cache1 !! (Demo.books_url, 10) = Some (mkCacheEntry pd_DataFrame_empty 0) /\
    cached_scrape_website (Demo.flaky Demo.two_books) 60 Demo.books_url 10 cache1 w1
    = (Return pd_DataFrame_empty, cache1, w1).
Proof.
  destruct (error_results_are_cached (Demo.flaky Demo.two_books)
              Demo.books_url 10 ∅ world0 0)
    as [cache1 [w1 [Hfirst [Hentry [Hhit _]]]]].
  - reflexivity.
  - right. eexists. vm_compute. reflexivity.
  - exists cache1, w1. split; [exact Hfirst|]. split; [exact Hentry|].
    apply Hhit. lia.
Defined.

(** C3, counterexample: on a network whose first request times out and
    whose later requests succeed, the failed run leaves an entry in the
    cache; a minute later the same key gets the stored empty frame and no
    request is sent, although running the pipeline again would have
    returned the two books. *)
Lemma failed_run_is_served_from_cache :
  let first :=
    cached_scrape_website (Demo.flaky Demo.two_books) 0 Demo.books_url 10 ∅ world0 in
  let second :=
    cached_scrape_website (Demo.flaky Demo.two_books) 60 Demo.books_url 10
      (snd (fst first)) (snd first) in
  fst (fst first) = Return pd_DataFrame_empty /\
  shown (snd first) = [st_error "❌ Error fetching website: Read timed out. (read timeout=10)"] /\
  cache_hit 3600 60 (Demo.books_url, 10) (snd (fst first)) = true /\
  fst (fst second) = Return pd_DataFrame_empty /\
  sent (snd second) = [the_request Demo.books_url] /\
  (exists df,
      fst (scrape_website (Demo.flaky Demo.two_books) Demo.books_url 10 (snd first))
      = Return df /\ len df = 2%nat).
Proof.
  repeat split; try (vm_compute; reflexivity).
  eexists. split; vm_compute; reflexivity.
Qed.

(** ** The correlation *)

Section ZeroOrNan.

Lemma zero_or_nan_mul_l (a b : float) :
  zero_or_nan a = true -> zero_or_nan (a * b)%float = true.
Proof.
  unfold zero_or_nan. rewrite FloatAxioms.mul_spec.
  destruct (Prim2SF a), (Prim2SF b); simpl; congruence.
Qed.

Lemma zero_or_nan_mul_r (a b : float) :
  zero_or_nan b = true -> zero_or_nan (a * b)%float = true.
Proof.
  unfold zero_or_nan. rewrite FloatAxioms.mul_spec.
  destruct (Prim2SF a), (Prim2SF b); simpl; congruence.
Qed.

Lemma zero_or_nan_add (a b : float) :
  zero_or_nan a = true -> zero_or_nan b = true -> zero_or_nan (a + b)%float = true.
Proof.
  unfold zero_or_nan. rewrite FloatAxioms.add_spec.
  destruct (Prim2SF a) as [[]| | |], (Prim2SF b) as [[]| | |]; simpl; congruence.
Qed.

Lemma zero_or_nan_sub (a b : float) :
  zero_or_nan a = true -> zero_or_nan b = true -> zero_or_nan (a - b)%float = true.
Proof.
  unfold zero_or_nan. rewrite FloatAxioms.sub_spec.
  destruct (Prim2SF a) as [[]| | |], (Prim2SF b) as [[]| | |]; simpl; congruence.
Qed.

Lemma zero_or_nan_div (a b : float) :
  zero_or_nan a = true -> zero_or_nan (a / b)%float = true.
Proof.
  unfold zero_or_nan. rewrite FloatAxioms.div_spec.
  destruct (Prim2SF a), (Prim2SF b); simpl; congruence.
Qed.

Lemma zero_or_nan_sqrt (a : float) :
  zero_or_nan a = true -> zero_or_nan (sqrt a) = true.
Proof.
  unfold zero_or_nan. rewrite FloatAxioms.sqrt_spec.
  destruct (Prim2SF a); simpl; congruence.
Qed.

Lemma nan_of_spec (a : float) : Prim2SF a = S754_nan -> a = nan.
Proof.
  intros Ha. rewrite <- (FloatAxioms.SF2Prim_Prim2SF a), Ha. reflexivity.
Qed.

(** 0/0, 0/NaN, NaN/0 and NaN/NaN are NaN. *)
Lemma div_zero_or_nan (a b : float) :
  zero_or_nan a = true -> zero_or_nan b = true -> (a / b)%float = nan.
Proof.
  unfold zero_or_nan. intros Ha Hb. apply nan_of_spec.
  rewrite FloatAxioms.div_spec.
  destruct (Prim2SF a), (Prim2SF b); simpl; congruence.
Qed.

Lemma nan_div (b : float) : (nan / b)%float = nan.
Proof.
  apply nan_of_spec. rewrite FloatAxioms.div_spec.
  change (Prim2SF nan) with S754_nan. reflexivity.
Qed.

Lemma div_nan (a : float) : (a / nan)%float = nan.
Proof.
  apply nan_of_spec. rewrite FloatAxioms.div_spec.
  change (Prim2SF nan) with S754_nan. destruct (Prim2SF a); reflexivity.
Qed.

Lemma zero_or_nan_fold (l : list float) (acc : float) :
  zero_or_nan acc = true ->
  Forall (fun v => zero_or_nan v = true) l ->
  zero_or_nan (fold_left PrimFloat.add l acc) = true.
Proof.
  intros Hacc Hl. revert acc Hacc.
  induction Hl as [|v l Hv _ IH]; intros acc Hacc; simpl; [exact Hacc|].
  apply IH. now apply zero_or_nan_add.
Qed.

Lemma zero_or_nan_fsum (l : list float) :
  Forall (fun v => zero_or_nan v = true) l -> zero_or_nan (Pandas.fsum l) = true.
Proof.
  intros Hl. destruct Hl as [|v l Hv Hl]; simpl; [reflexivity|].
  now apply zero_or_nan_fold.
Qed.

Lemma zero_or_nan_demean (l : list float) :
  Forall (fun v => zero_or_nan v = true) l ->
  Forall (fun v => zero_or_nan v = true) (Pandas.demean l).
Proof.
  intros Hl. unfold Pandas.demean.
  assert (Hmean : zero_or_nan (Pandas.mean l) = true).
  { unfold Pandas.mean. apply zero_or_nan_div. now apply zero_or_nan_fsum. }
  revert Hmean. generalize (Pandas.mean l). intros m Hm.
  induction Hl as [|v l Hv _ IH]; simpl; constructor.
  - now apply zero_or_nan_sub.
  - exact IH.
Qed.

Lemma zero_or_nan_dot_l (a b : list float) :
  Forall (fun v => zero_or_nan v = true) a -> zero_or_nan (Pandas.dot a b) = true.
Proof.
  intros Ha. unfold Pandas.dot. apply zero_or_nan_fsum.
  revert b. induction Ha as [|v a Hv _ IH]; intros [|w b]; simpl; constructor.
  - now apply zero_or_nan_mul_l.
  - apply IH.
Qed.

Lemma zero_or_nan_dot_r (a b : list float) :
  Forall (fun v => zero_or_nan v = true) b -> zero_or_nan (Pandas.dot a b) = true.
Proof.
  intros Hb. unfold Pandas.dot. apply zero_or_nan_fsum.
  revert a. induction Hb as [|w b Hw _ IH]; intros [|v a]; simpl; constructor.
  - now apply zero_or_nan_mul_r.
  - apply IH.
Qed.

Lemma dropna_fst (a b : list float) (P : float -> Prop) :
  Forall P a -> Forall P (map fst (Pandas.dropna a b)).
Proof.
  intros Ha. unfold Pandas.dropna. revert b.
  induction Ha as [|v a Hv _ IH]; intros [|w b]; simpl; try constructor.
  destruct (Pandas.notna v && Pandas.notna w); simpl; [constructor; [exact Hv|]|]; apply IH.
Qed.

Lemma dropna_snd (a b : list float) (P : float -> Prop) :
  Forall P b -> Forall P (map snd (Pandas.dropna a b)).
Proof.
  intros Hb. unfold Pandas.dropna. revert a.
  induction Hb as [|w b Hw _ IH]; intros [|v a]; simpl; try constructor.
  destruct (Pandas.notna v && Pandas.notna w); simpl; [constructor; [exact Hw|]|]; apply IH.
Qed.

Lemma clip_nan : Pandas.clip nan = nan.
Proof. reflexivity. Qed.

(** A column that is zero throughout makes the coefficient NaN. *)
Lemma corr_zero_l (a b : list float) :
  Forall (fun v => zero_or_nan v = true) a -> Pandas.corr a b = nan.
Proof.
  intros Ha. unfold Pandas.corr.
  destruct (length (Pandas.dropna a b) <? 1)%nat; [reflexivity|].
  pose proof (zero_or_nan_demean _ (dropna_fst a b _ Ha)) as Hx.
  rewrite (div_zero_or_nan
             (Pandas.dot (Pandas.demean (map fst (Pandas.dropna a b)))
                (Pandas.demean (map snd (Pandas.dropna a b))) * _)%float).
  - rewrite nan_div. apply clip_nan.
  - apply zero_or_nan_mul_l. now apply zero_or_nan_dot_l.
  - apply zero_or_nan_sqrt, zero_or_nan_mul_l. now apply zero_or_nan_dot_l.
Qed.

Lemma corr_zero_r (a b : list float) :
  Forall (fun v => zero_or_nan v = true) b -> Pandas.corr a b = nan.
Proof.
  intros Hb. unfold Pandas.corr.
  destruct (length (Pandas.dropna a b) <? 1)%nat; [reflexivity|].
  pose proof (zero_or_nan_demean _ (dropna_snd a b _ Hb)) as Hy.
  rewrite (div_zero_or_nan _ (sqrt (Pandas.dot (Pandas.demean (map snd (Pandas.dropna a b)))
                                      (Pandas.demean (map snd (Pandas.dropna a b))) * _))%float).
  - apply clip_nan.
  - apply zero_or_nan_div, zero_or_nan_mul_l. now apply zero_or_nan_dot_r.
  - apply zero_or_nan_sqrt, zero_or_nan_mul_l. now apply zero_or_nan_dot_l.
Qed.

End ZeroOrNan.

(** C5, as amended.  For every record set in which the Price is 0.0 in all
    records (every frame scraped from the quotes layout is one) or the
    Rating is 0 in all records, the correlation computation returns NaN
    and not 0: the code passes on what the library's Pearson coefficient
    gives for a column without variance.  The insight rule compares the
    absolute value with 0.5, which is false for NaN, so no correlation
    insight is added. *)
Theorem correlation_of_zero_column_is_nan (df : DataFrame) :
  Forall (fun r => Price r = 0%float) (rows df) \/
  Forall (fun r => Rating r = PyInt 0) (rows df) ->
  correlation df = nan /\
  is_nan (correlation df) = true /\
  correlation_insight df = [].
Proof.
  intros Hzero.
  assert (Hnan : correlation df = nan).
  { unfold correlation. destruct Hzero as [Hprice|Hrating].
    - apply corr_zero_l.
      induction Hprice as [|r l Hr _ IH]; simpl; constructor; [|exact IH].
      rewrite Hr. reflexivity.
    - apply corr_zero_r.
      induction Hrating as [|r l Hr _ IH]; simpl; constructor; [|exact IH].
      rewrite Hr. reflexivity. }
  split; [exact Hnan|].
  unfold correlation_insight. rewrite Hnan. split; reflexivity.
Qed.

(** C5, witness: the frame of the two quotes. *)
Lemma correlation_of_zero_column_is_nan_witness :
  correlation Demo.quotes_frame = nan /\
  is_nan (correlation Demo.quotes_frame) = true /\
  correlation_insight Demo.quotes_frame = [].
Proof.
  apply correlation_of_zero_column_is_nan.
  left. repeat constructor.
Defined.

(** C5, counterexample: the frame scraped from the quotes page is not
    empty and both its Price and its Rating are constant, yet its
    correlation is NaN: it is not equal to 0, nor to itself. *)
Lemma constant_fields_give_nan :
  fst (scrape_website (Demo.shop Demo.two_books) Demo.quotes_url 50 world0)
  = Return Demo.quotes_frame /\
  map Price (rows Demo.quotes_frame) = [0%float; 0%float] /\
  map Rating (rows Demo.quotes_frame) = [PyFloat 5%float; PyFloat 5%float] /\
  correlation Demo.quotes_frame = nan /\
  is_nan (correlation Demo.quotes_frame) = true /\
  (correlation Demo.quotes_frame =? 0)%float = false.
Proof. repeat split; vm_compute; reflexivity. Qed.

(** * Further properties of the scraper *)

Lemma prefix_app (sub s : string) : String.prefix sub (sub ++ s) = true.
Proof.
  induction sub as [|c sub IH]; simpl.
  - destruct s; reflexivity.
  - destruct (ascii_dec c c) as [_|Hne]; [exact IH|congruence].
Qed.

Lemma contains_prefix (sub s : string) :
  String.prefix sub s = true -> Str.contains sub s = true.
Proof. intros Hprefix. destruct s; cbn [Str.contains]; now rewrite Hprefix. Qed.

Lemma contains_app (sub before after : string) :
  Str.contains sub (before ++ sub ++ after) = true.
Proof.
  induction before as [|c before IH].
  - change ("" ++ sub ++ after) with (sub ++ after).
    apply contains_prefix, prefix_app.
  - change (Str.contains sub (String c (before ++ sub ++ after)) = true).
    cbn [Str.contains]. rewrite IH. apply orb_true_r.
Qed.

Lemma firstn_le_app {A} (l : list A) (n m : nat) :
  (n <= m)%nat -> firstn m l = (firstn n l ++ skipn n (firstn m l))%list.
Proof.
  intros Hle. rewrite <- (firstn_skipn n (firstn m l)) at 1.
  rewrite firstn_firstn. now replace (Nat.min n m) with n by lia.
Qed.

Section ScraperEffects.

Context {Tag : Type} `{Bs4 Tag}.
Variable internet : nat -> request -> pyresult Response.

(** X1.  Whatever the URL, the network and the page, one call of
    [scrape_website] sends exactly one request, for the URL as given with
    the User-Agent header and a timeout of 10, and shows at most one
    message; when it shows one, the frame it returns is empty. *)
Theorem scrape_website_effects (url : string) (max_items : Z) (w : World) :
  exists df w',
    scrape_website internet url max_items w = (Return df, w') /\
    sent w' =
      (sent w ++
       [mkRequest url
          [("User-Agent", "Mozilla/5.0 (Windows NT 10.0; Win64; x64) AppleWebKit/537.36")]
          10])%list /\
    (shown w' = shown w \/
     exists message, shown w' = (shown w ++ [message])%list /\ rows df = []).
Proof.
  rewrite scrape_website_run.
  destruct (fetch_document internet (length (sent w)) url) as [soup|e];
    [destruct (route url) as [l|]|];
    eexists; eexists; (split; [reflexivity|]); (split; [reflexivity|]); simpl.
  - left. reflexivity.
  - right. eexists. split; reflexivity.
  - right. eexists. split; reflexivity.
Qed.

(** X2.  Raising [max_items] only appends records: for [0 <= n <= m] the
    frame returned with [max_items = n] is a prefix of the one returned
    with [max_items = m] from the same state, and the two calls have the
    same effects. *)
Theorem larger_max_items_appends (url : string) (n m : Z) (w : World) :
  0 <= n <= m ->
  exists df df' w' more,
    scrape_website internet url n w = (Return df, w') /\
    scrape_website internet url m w = (Return df', w') /\
    rows df' = (rows df ++ more)%list.
Proof.
  intros [Hn Hnm]. rewrite !scrape_website_run.
  destruct (fetch_document internet (length (sent w)) url) as [soup|e];
    [destruct (route url) as [l|]|].
  - unfold slice_to.
    destruct (0 <=? n) eqn:En; [|lia]. destruct (0 <=? m) eqn:Em; [|lia].
    rewrite (firstn_le_app (blocks_of l soup) (Z.to_nat n) (Z.to_nat m)) by lia.
    rewrite successes_app.
    eexists; eexists; eexists; eexists.
    split; [reflexivity|]. split; reflexivity.
  - exists pd_DataFrame_empty, pd_DataFrame_empty. eexists. exists [].
    split; [reflexivity|]. split; reflexivity.
  - exists pd_DataFrame_empty, pd_DataFrame_empty. eexists. exists [].
    split; [reflexivity|]. split; reflexivity.
Qed.

(** X3.  The layout is chosen by substring: a URL that contains
    [books.toscrape.com] anywhere, in the path or the query of another
    host as well, is scraped with the books layout, also when it contains
    [quotes.toscrape.com] too. *)
Theorem books_pattern_anywhere_wins (before after : string) (max_items : Z)
    (w : World) (soup : Tag) :
  fetch_document internet (length (sent w))
    (before ++ "books.toscrape.com" ++ after) = Return soup ->
  exists w',
    scrape_website internet (before ++ "books.toscrape.com" ++ after) max_items w
    = (Return (pd_DataFrame
                 (successes extract_book
                    (slice_to (find_all soup "article" "product_pod") max_items))),
       w') /\
    shown w' = shown w.
Proof.
  intros Hfetch. rewrite scrape_website_run, Hfetch.
  unfold route. rewrite contains_app.
  eexists. split; reflexivity.
Qed.

(** X4.  A response whose status is from 400 to 599 is a fetch failure
    whatever its body: the page is not scraped, the frame is empty and the
    message is the "Error fetching website" one, also for a supported
    URL.  Any other status is not looked at again: the body is parsed. *)
Theorem error_status_is_a_fetch_failure (url : string) (max_items : Z) (w : World)
    (response : Response) :
  internet (length (sent w)) (the_request url) = Return response ->
  (400 <= status_code response < 600 ->
   exists w' detail,
     scrape_website internet url max_items w = (Return pd_DataFrame_empty, w') /\
     shown w' = (shown w ++ [st_error ("❌ Error fetching website: " ++ detail)])%list) /\
  (status_code response < 400 \/ 600 <= status_code response ->
   fetch_document internet (length (sent w)) url
   = BeautifulSoup (content response) "html.parser").
Proof.
  intros Hresponse. split.
  - intros Hstatus. rewrite scrape_website_run.
    unfold fetch_document. rewrite Hresponse. simpl.
    unfold raise_for_status.
    destruct (400 <=? status_code response) eqn:E1; [|lia].
    destruct (status_code response <? 600) eqn:E2; [|lia].
    simpl. eexists; eexists. split; reflexivity.
  - intros Hstatus. unfold fetch_document. rewrite Hresponse. simpl.
    unfold raise_for_status.
    destruct (400 <=? status_code response) eqn:E1;
      destruct (status_code response <? 600) eqn:E2; simpl; try reflexivity; lia.
Qed.

(** X5.  A listing is recorded exactly when it has its title anchor, a
    price that reads as a number, and a rating element.  Neither a missing
    [title] attribute nor a missing availability element drops it: the
    first gives the title 'N/A', the second [In_Stock = False]. *)
Theorem extract_book_succeeds_iff (book : Tag) :
  ((exists r, extract_book book = Return r) <->
   (exists a, title_anchor book = Return a) /\
   (exists price, price_of book = Return price) /\
   (exists rating_element, find book "p" (Some "star-rating") = Some rating_element)) /\
  (forall r a,
      extract_book book = Return r ->
      title_anchor book = Return a ->
      (get_attr a "title" = None -> Title r = "N/A") /\
      (find book "p" (Some "instock availability") = None -> In_Stock r = false)).
Proof.
  rewrite extract_book_parts. split; [split|].
  - intros [r Hr].
    destruct (title_anchor book) as [a|e]; simpl in Hr; [|discriminate].
    destruct (price_of book) as [price|e]; simpl in Hr; [|discriminate].
    destruct (find book "p" (Some "star-rating")) as [elem|]; simpl in Hr; [|discriminate].
    repeat split; eexists; reflexivity.
  - intros [[a Ha] [[price Hprice] [elem Helem]]].
    rewrite Ha, Hprice, Helem. simpl. eexists. reflexivity.
  - intros r a Hr Ha. rewrite Ha in Hr. simpl in Hr.
    destruct (price_of book) as [price|e]; simpl in Hr; [|discriminate].
    destruct (find book "p" (Some "star-rating")) as [elem|]; simpl in Hr; [|discriminate].
    injection Hr as <-. simpl. split.
    + intros ->. reflexivity.
    + intros Hnone. unfold in_stock_of. now rewrite Hnone.
Qed.

(** X6.  A quote is recorded exactly when it has both its text span and
    its author element, although the text is not stored: the record is
    made from the author alone, stripped of surrounding whitespace. *)
Theorem extract_quote_succeeds_iff (quote : Tag) :
  ((exists r, extract_quote quote = Return r) <->
   (exists span, find quote "span" (Some "text") = Some span) /\
   (exists small, find quote "small" (Some "author") = Some small)) /\
  (forall r small,
      extract_quote quote = Return r ->
      find quote "small" (Some "author") = Some small ->
      r = mkProduct ("Quote by " ++ Str.strip (text small)) 0%float (PyFloat 5%float)
            true "Quotes").
Proof.
  unfold extract_quote. split; [split|].
  - intros [r Hr].
    destruct (find quote "span" (Some "text")) as [span|]; simpl in Hr; [|discriminate].
    destruct (find quote "small" (Some "author")) as [small|]; simpl in Hr; [|discriminate].
    split; eexists; reflexivity.
  - intros [[span Hspan] [small Hsmall]]. rewrite Hspan, Hsmall. simpl.
    eexists. reflexivity.
  - intros r small Hr Hsmall.
    destruct (find quote "span" (Some "text")) as [span|]; simpl in Hr; [|discriminate].
    rewrite Hsmall in Hr. simpl in Hr. now injection Hr as <-.
Qed.

End ScraperEffects.

#[local] Existing Instance Sample.imaging.

(** X2, witness: two of five listings, then four. *)
Lemma larger_max_items_appends_witness :
  exists df df' w' more,
    scrape_website (Demo.shop Demo.five_books) Demo.books_url 2 world0 = (Return df, w') /\
    scrape_website (Demo.shop Demo.five_books) Demo.books_url 4 world0 = (Return df', w') /\
    rows df' = (rows df ++ more)%list.
Proof.
  apply (larger_max_items_appends (Demo.shop Demo.five_books) Demo.books_url 2 4 world0).
  lia.
Defined.

(** X3, witness: an address on another host that names both shops gets
    the books layout. *)
Lemma books_pattern_anywhere_wins_witness :
  exists w',
    scrape_website Sample.referral Sample.referral_url 50 world0
    = (Return (pd_DataFrame
                 [mkProduct "A Light in the Attic" 10%float (PyInt 3) true "Books";
                  mkProduct "Tipping the Velvet" 20%float (PyInt 1) true "Books"]),
       w') /\
    shown w' = [].
Proof.
  exact (books_pattern_anywhere_wins Sample.referral
           "https://example.com/?next=" "&also=quotes.toscrape.com" 50 world0
           (Demo.soup Demo.two_books) eq_refl).
Defined.

(** X4, witness: a 404 whose body is a page of listings. *)
Lemma error_status_is_a_fetch_failure_witness :
  exists w' detail,
    scrape_website Sample.not_found Demo.books_url 50 world0
    = (Return pd_DataFrame_empty, w') /\
    shown w' = [st_error ("❌ Error fetching website: " ++ detail)].
Proof.
  destruct (error_status_is_a_fetch_failure Sample.not_found Demo.books_url 50 world0
              (mkResponse 404 (Dom.render Demo.five_books)) eq_refl)
    as [Herror _].
  apply Herror. simpl. lia.
Defined.

(** X5, witness: a listing with neither a [title] attribute nor an
    availability element is recorded. *)
Lemma extract_book_succeeds_iff_witness :
  extract_book Sample.plain_listing
  = Return (mkProduct "N/A" 12.5%float (PyInt 4) false "Books").
Proof.
  destruct (extract_book_succeeds_iff Sample.plain_listing) as [[_ Hif] Hfields].
  destruct Hif as [r Hr].
  { split; [|split]; eexists; vm_compute; reflexivity. }
  destruct (Hfields r (Dom.Element "a" None [] [Dom.Text "Untitled"]) Hr eq_refl)
    as [Htitle Hstock].
  rewrite Hr. vm_compute in Hr. injection Hr as <-. reflexivity.
Defined.

(** ** The page around the scraper *)

Section PageFacts.

Context {Tag : Type} `{Bs4 Tag}.
Variable internet : nat -> request -> pyresult Response.

(** The cached call never raises, and sends one request or none. *)
Lemma cached_scrape_website_returns (now : Z) (url : string) (max_items : Z)
    (cache : gmap (string * Z) CacheEntry) (w : World) :
  exists df cache' w',
    cached_scrape_website internet now url max_items cache w = (Return df, cache', w') /\
    (sent w' = sent w \/ sent w' = (sent w ++ [the_request url])%list).
Proof.
  unfold cached_scrape_website, get_or_compute.
  destruct (scrape_website_returns internet url max_items w) as [df [w' [Hrun Hsent]]].
  rewrite Hrun.
  destruct (cache !! (url, max_items)) as [entry|];
    [destruct (fresh 3600 now entry)|];
    eexists; eexists; eexists; (split; [reflexivity|]); auto.
Qed.

(** X7.  One press of the button never raises and sends at most one
    request.  With an empty URL it sends none: the cache, the session and
    the success notes stay as they were and "Please enter a URL" is
    shown. *)
Theorem start_scraping_is_safe (now : Z) (stamp url : string) (max_products : Z)
    (p : Page) :
  exists p',
    start_scraping internet now stamp url max_products p = (Return tt, p') /\
    (sent (page_world p') = sent (page_world p) \/
     sent (page_world p') = (sent (page_world p) ++ [the_request url])%list) /\
    (url = "" ->
     p' = mkPage (page_cache p)
            (mkWorld (sent (page_world p))
               (shown (page_world p) ++ [st_error "❌ Please enter a URL"])%list)
            (page_success p) (page_session p)).
Proof.
  unfold start_scraping. destruct url as [|c url].
  - eexists. split; [reflexivity|]. split; [left; reflexivity|].
    intros _. reflexivity.
  - destruct (cached_scrape_website_returns now (String c url) max_products
                (page_cache p) (page_world p))
      as [df [cache' [w' [Hcall Hsent]]]].
    rewrite Hcall.
    destruct (negb (empty df)); eexists;
      (split; [reflexivity|]); (split; [exact Hsent|]); intros Habs; discriminate Habs.
Qed.

Lemma empty_false_rows (df : DataFrame) : empty df = false -> rows df <> [].
Proof. unfold empty. destruct (rows df); [discriminate|]. intros _ Habs. discriminate Habs. Qed.

(** One press leaves the session alone or fills its three keys together,
    with a frame that has rows. *)
Lemma start_scraping_session (c : click) (p : Page) :
  let p' := snd (start_scraping internet (click_now c) (click_stamp c) (click_url c)
                   (click_max_products c) p) in
  page_session p' = page_session p \/
  exists df,
    empty df = false /\
    page_session p' = mkSession (Some df) (Some (click_url c)) (Some (click_stamp c)).
Proof.
  unfold start_scraping. destruct (click_url c) as [|a url] eqn:Hurl; simpl.
  - left. reflexivity.
  - destruct (cached_scrape_website internet (click_now c) (String a url)
                (click_max_products c) (page_cache p) (page_world p))
      as [[[df|e] cache'] w']; simpl.
    + destruct (empty df) eqn:Hempty; simpl.
      * left. reflexivity.
      * right. exists df. split; [exact Hempty|reflexivity].
    + left. reflexivity.
Qed.

Lemma run_clicks_session (clicks : list click) (p : Page) :
  page_session (run_clicks internet clicks p) = page_session p \/
  exists c df,
    In c clicks /\ empty df = false /\
    page_session (run_clicks internet clicks p)
    = mkSession (Some df) (Some (click_url c)) (Some (click_stamp c)).
Proof.
  revert p. induction clicks as [|c clicks IH]; intros p.
  - left. reflexivity.
  - unfold run_clicks in *. simpl.
    destruct (IH (snd (start_scraping internet (click_now c) (click_stamp c)
                         (click_url c) (click_max_products c) p)))
      as [Hsame|[c' [df [Hin [Hdf Hsession]]]]].
    + rewrite Hsame.
      destruct (start_scraping_session c p) as [Hkeep|[df [Hdf Hfill]]].
      * left. exact Hkeep.
      * right. exists c, df. split; [now left|]. split; [exact Hdf|exact Hfill].
    + right. exists c', df. split; [now right|]. split; [exact Hdf|exact Hsession].
Qed.

(** X8.  After any number of presses on a fresh page the session is
    either still empty or holds a frame with at least one row together
    with the URL and the time stamp of one of the presses.  So the results
    section is drawn exactly when a frame is stored, and when it is drawn
    the report finds its ['url'] and ['scraped_at'] keys. *)
Theorem session_is_consistent (clicks : list click) :
  let s := page_session (run_clicks internet clicks page0) in
  (s = mkSession None None None /\ results_shown s = false) \/
  (exists c df,
      In c clicks /\ rows df <> [] /\
      s = mkSession (Some df) (Some (click_url c)) (Some (click_stamp c)) /\
      results_shown s = true /\
      report_source s = Return (click_url c, click_stamp c)).
Proof.
  simpl. destruct (run_clicks_session clicks page0) as [Hsame|[c [df [Hin [Hdf Hs]]]]].
  - left. rewrite Hsame. split; reflexivity.
  - right. exists c, df. rewrite Hs.
    split; [exact Hin|]. split; [now apply empty_false_rows|].
    split; [reflexivity|]. unfold results_shown, report_source. simpl.
    rewrite Hdf. split; reflexivity.
Qed.

(** X9.  A press for an unsupported URL, or one whose fetch fails, on a
    key the cache does not hold, leaves the session and the success notes
    as they were, so earlier results stay on the page; it shows two
    messages, the scraper's own and then "No products found". *)
Theorem failed_scrape_keeps_session (now : Z) (stamp url : string) (max_products : Z)
    (p : Page) :
  url <> "" ->
  cache_hit 3600 now (url, max_products) (page_cache p) = false ->
  route url = None \/
  (exists e, fetch_document internet (length (sent (page_world p))) url = Raise e) ->
  exists p' message,
    start_scraping internet now stamp url max_products p = (Return tt, p') /\
    page_session p' = page_session p /\
    page_success p' = page_success p /\
    shown (page_world p')
    = (shown (page_world p) ++ [message; st_warning no_products_warning])%list.
Proof.
  intros Hurl Hmiss Herror.
  assert (Hrun : exists message,
             scrape_website internet url max_products (page_world p)
             = (Return pd_DataFrame_empty,
                mkWorld (sent (page_world p) ++ [the_request url])%list
                        (shown (page_world p) ++ [message])%list)).
  { rewrite scrape_website_run. destruct Herror as [Hroute|[e He]].
    - rewrite Hroute.
      destruct (fetch_document internet (length (sent (page_world p))) url);
        eexists; reflexivity.
    - rewrite He. eexists; reflexivity. }
  destruct Hrun as [message Hrun].
  unfold start_scraping. destruct url as [|c url]; [congruence|].
  rewrite (cache_miss_recomputes internet now (String c url) max_products
             (page_cache p) (page_world p) _ _ Hmiss Hrun).
  simpl. eexists; exists message. split; [reflexivity|]. simpl.
  split; [reflexivity|]. split; [reflexivity|].
  now rewrite <- app_assoc.
Qed.

End PageFacts.

(** X8, witness: a failed press, a successful one and one without a
    URL; the results of the second are stored and stay. *)
Lemma session_is_consistent_witness :
  let s :=
    page_session
      (run_clicks (Demo.shop Demo.two_books)
         [mkClick 0 "2024-05-01 09:00:00" Demo.other_url 50;
          mkClick 60 "2024-05-01 09:01:00" Demo.books_url 50;
          mkClick 120 "2024-05-01 09:02:00" "" 50]
         page0) in
  results_shown s = true /\
  session_url s = Some Demo.books_url /\
  session_scraped_at s = Some "2024-05-01 09:01:00".
Proof.
  destruct (session_is_consistent (Demo.shop Demo.two_books)
              [mkClick 0 "2024-05-01 09:00:00" Demo.other_url 50;
               mkClick 60 "2024-05-01 09:01:00" Demo.books_url 50;
               mkClick 120 "2024-05-01 09:02:00" "" 50])
    as [[Hnone _]|[c [df [_ [_ [_ [Hshown _]]]]]]].
  - vm_compute in Hnone. discriminate Hnone.
  - split; [exact Hshown|]. split; vm_compute; reflexivity.
Defined.

(** X9, witness: an address of no known shop on a fresh page. *)
Lemma failed_scrape_keeps_session_witness :
  exists p' message,
    start_scraping (Demo.shop Demo.two_books) 0 "2024-05-01 09:00:00" Demo.other_url 50 page0
    = (Return tt, p') /\
    page_session p' = mkSession None None None /\
    page_success p' = [] /\
    shown (page_world p') = [message; st_warning no_products_warning].
Proof.
  apply (failed_scrape_keeps_session (Demo.shop Demo.two_books) 0 "2024-05-01 09:00:00"
           Demo.other_url 50 page0).
  - discriminate.
  - reflexivity.
  - left. reflexivity.
Defined.

(** * Properties of the OCR application *)

Section TextCounts.

Let visible (c : Z) : bool := negb (Ocr.isspace c).

Lemma truthy_lstrip (l : list Z) : Ocr.truthy (Ocr.lstrip l) = existsb visible l.
Proof.
  induction l as [|c l IH]; simpl; [reflexivity|].
  unfold visible at 1. destruct (Ocr.isspace c); simpl; [exact IH|reflexivity].
Qed.

Lemma existsb_lstrip (l : list Z) : existsb visible (Ocr.lstrip l) = existsb visible l.
Proof.
  induction l as [|c l IH]; simpl; [reflexivity|].
  unfold visible at 2. destruct (Ocr.isspace c) eqn:E; simpl; [exact IH|].
  unfold visible at 1. now rewrite E.
Qed.

Lemma truthy_rev {A} (l : list A) : Ocr.truthy (rev l) = Ocr.truthy l.
Proof.
  destruct l as [|a l]; [reflexivity|]. simpl.
  destruct (rev l); reflexivity.
Qed.

Lemma existsb_rev {A} (f : A -> bool) (l : list A) : existsb f (rev l) = existsb f l.
Proof.
  induction l as [|a l IH]; simpl; [reflexivity|].
  rewrite existsb_app, IH. simpl. rewrite orb_false_r. apply orb_comm.
Qed.

(** A line counts when it has a character that is not whitespace. *)
Lemma truthy_strip (l : list Z) : Ocr.truthy (Ocr.strip l) = existsb visible l.
Proof.
  unfold Ocr.strip.
  now rewrite truthy_rev, truthy_lstrip, existsb_rev, existsb_lstrip.
Qed.

Lemma count_lines_from (piece s : list Z) :
  length (List.filter (fun line => Ocr.truthy (Ocr.strip line))
            (Ocr.pieces_from Ocr.newline piece s))
  = match s with
    | [] => if existsb visible piece then 1%nat else 0%nat
    | c :: s' =>
        if c =? Ocr.newline
        then ((if existsb visible piece then 1 else 0)
              + length (List.filter (fun line => Ocr.truthy (Ocr.strip line))
                          (Ocr.pieces_from Ocr.newline [] s')))%nat
        else length (List.filter (fun line => Ocr.truthy (Ocr.strip line))
                       (Ocr.pieces_from Ocr.newline (c :: piece) s'))
    end.
Proof.
  destruct s as [|c s']; simpl.
  - rewrite truthy_strip, existsb_rev. destruct (existsb visible piece); reflexivity.
  - destruct (c =? Ocr.newline); simpl; [|reflexivity].
    rewrite truthy_strip, existsb_rev. destruct (existsb visible piece); reflexivity.
Qed.

Lemma lines_le_words_from (s word piece : list Z) :
  (Ocr.truthy word = true -> existsb visible piece = true) ->
  (length (List.filter (fun line => Ocr.truthy (Ocr.strip line))
             (Ocr.pieces_from Ocr.newline piece s))
   <= length (Ocr.words_from word s)
      + (if existsb visible piece && negb (Ocr.truthy word) then 1 else 0))%nat.
Proof.
  revert word piece.
  induction s as [|c s IH]; intros word piece Hword; rewrite count_lines_from.
  - simpl. destruct word; simpl in *.
    + destruct (existsb visible piece); simpl; lia.
    + rewrite Hword by reflexivity. simpl. lia.
  - destruct (c =? Ocr.newline) eqn:Enl.
    + apply Z.eqb_eq in Enl. subst c.
      change (Ocr.words_from word (Ocr.newline :: s))
        with (match word with
              | [] => Ocr.words_from [] s
              | _ => rev word :: Ocr.words_from [] s
              end).
      specialize (IH [] [] (fun Habs => Habs)). simpl in IH.
      destruct word; simpl in *.
      * destruct (existsb visible piece); simpl; lia.
      * rewrite Hword by reflexivity. simpl. lia.
    + simpl. destruct (Ocr.isspace c) eqn:Esp.
      * assert (Hpiece : existsb visible (c :: piece) = existsb visible piece).
        { simpl. unfold visible at 1. now rewrite Esp. }
        specialize (IH [] (c :: piece) (fun Habs => ltac:(discriminate Habs))).
        rewrite Hpiece in IH. simpl in IH.
        destruct word; simpl in *.
        -- exact IH.
        -- rewrite Hword in * by reflexivity. simpl in *. lia.
      * assert (Hpiece : existsb visible (c :: piece) = true).
        { simpl. unfold visible at 1. now rewrite Esp. }
        specialize (IH (c :: word) (c :: piece) (fun _ => Hpiece)).
        rewrite Hpiece in IH. simpl in IH. lia.
Qed.

Lemma words_le_chars_from (s word : list Z) :
  (length (Ocr.words_from word s)
   <= length s + (if Ocr.truthy word then 1 else 0))%nat.
Proof.
  revert word. induction s as [|c s IH]; intros word; simpl.
  - destruct word; simpl; lia.
  - destruct (Ocr.isspace c).
    + specialize (IH []). simpl in IH. destruct word; simpl; lia.
    + specialize (IH (c :: word)). simpl in IH. lia.
Qed.

(** The three counts of a text are ordered. *)
Lemma counts_ordered (text : list Z) :
  (Ocr.count_lines text <= Ocr.count_words text <= length text)%nat.
Proof.
  unfold Ocr.count_lines, Ocr.count_words, Ocr.split, Ocr.split_on. split.
  - pose proof (lines_le_words_from text [] [] (fun Habs => Habs)) as Hle.
    simpl in Hle. lia.
  - pose proof (words_le_chars_from text []) as Hle. simpl in Hle. lia.
Qed.

End TextCounts.

Section BlankText.

Let visible (c : Z) : bool := negb (Ocr.isspace c).

Lemma no_words_from (s word : list Z) :
  length (Ocr.words_from word s) = 0%nat <->
  Ocr.truthy word = false /\ existsb visible s = false.
Proof.
  revert word. induction s as [|c s IH]; intros word; simpl.
  - destruct word; simpl; split; try tauto; try discriminate.
    intros [Habs _]. discriminate Habs.
  - unfold visible at 1. destruct (Ocr.isspace c); simpl.
    + destruct word; simpl.
      * apply (IH []).
      * split; [discriminate|]. intros [Habs _]. discriminate Habs.
    + rewrite (IH (c :: word)). simpl. split; intros [H1 H2]; discriminate.
Qed.

Lemma no_lines_from (s piece : list Z) :
  length (List.filter (fun line => Ocr.truthy (Ocr.strip line))
            (Ocr.pieces_from Ocr.newline piece s)) = 0%nat <->
  existsb visible piece = false /\ existsb visible s = false.
Proof.
  revert piece. induction s as [|c s IH]; intros piece; rewrite count_lines_from.
  - fold visible. simpl. destruct (existsb visible piece); split;
      try tauto; try discriminate.
    intros [H1 H2]; discriminate.
  - fold visible. destruct (c =? Ocr.newline) eqn:Enl.
    + apply Z.eqb_eq in Enl. subst c.
      change (existsb visible (Ocr.newline :: s)) with (existsb visible s).
      specialize (IH []). simpl in IH.
      destruct (existsb visible piece).
      * split; [discriminate|]. intros [H1 H2]; discriminate.
      * simpl. rewrite IH. tauto.
    + rewrite (IH (c :: piece)). simpl.
      destruct (visible c); simpl; [|tauto].
      split; intros [H1 H2]; discriminate.
Qed.

(** A text has no word exactly when it has no line that counts. *)
Lemma blank_counts (text : list Z) :
  Ocr.count_words text = 0%nat <-> Ocr.count_lines text = 0%nat.
Proof.
  unfold Ocr.count_words, Ocr.count_lines, Ocr.split, Ocr.split_on.
  rewrite no_words_from, no_lines_from. simpl. tauto.
Qed.

End BlankText.

Section OcrFacts.

Context {Image : Type} `{Ocr.Imaging Image}.

(** X10.  In every dictionary [extract_text_from_image] returns, the line
    count is at most the word count and the word count at most the
    character count, which is the length of the text; there is no word
    exactly when there is no counted line. *)
Theorem extraction_counts_are_ordered (img : Image) (preprocess_method : string)
    (w w' : World) (result : Ocr.extraction) :
  Ocr.extract_text_from_image img preprocess_method w = (Return (Some result), w') ->
  (Ocr.line_count result <= Ocr.word_count result <= Ocr.char_count result)%nat /\
  Ocr.char_count result = length (Ocr.text result) /\
  (Ocr.word_count result = 0%nat <-> Ocr.line_count result = 0%nat).
Proof.
  unfold Ocr.extract_text_from_image, try_except, bind, lift, ret, show, Ocr.extract_body.
  destruct (Ocr.preprocess img preprocess_method) as [img'|e]; simpl;
    [|intros Habs; discriminate Habs].
  destruct (Ocr.image_to_string img' "--oem 3 --psm 6") as [text|e]; simpl;
    [|intros Habs; discriminate Habs].
  destruct (Ocr.image_to_data_conf img') as [conf|e]; simpl;
    [|intros Habs; discriminate Habs].
  intros Hresult. injection Hresult as <- _. simpl.
  split; [apply counts_ordered|]. split; [reflexivity|apply blank_counts].
Qed.

(** X11.  [extract_text_from_image] never raises and sends nothing.  When
    a step of the preprocessing or of the recognition raises, it returns
    [None] and shows one "Error: ..." message with the exception's text;
    otherwise it returns the dictionary and shows nothing. *)
Theorem extract_text_from_image_total (img : Image) (preprocess_method : string)
    (w : World) :
  exists result w',
    Ocr.extract_text_from_image img preprocess_method w = (Return result, w') /\
    sent w' = sent w /\
    match Ocr.extract_body img preprocess_method with
    | Return extraction => result = Some extraction /\ shown w' = shown w
    | Raise e =>
        result = None /\
        shown w' = (shown w ++ [st_error ("Error: " ++ str_exn e)])%list
    end.
Proof.
  unfold Ocr.extract_text_from_image, try_except, bind, lift, ret, show.
  destruct (Ocr.extract_body img preprocess_method) as [extraction|e]; simpl;
    eexists; eexists; (split; [reflexivity|]); simpl; repeat split.
Qed.

End OcrFacts.

(** X10, witness: the receipt has three lines, five words and thirty
    characters. *)
Lemma extraction_counts_are_ordered_witness :
  exists result,
    Ocr.extract_text_from_image Sample.receipt "Full Preprocessing" world0
    = (Return (Some result), world0) /\
    (Ocr.line_count result, Ocr.word_count result, Ocr.char_count result)
    = (3%nat, 5%nat, 30%nat) /\
    (Ocr.line_count result <= Ocr.word_count result <= Ocr.char_count result)%nat.
Proof.
  eexists. split; [vm_compute; reflexivity|]. split; [reflexivity|].
  eapply (extraction_counts_are_ordered Sample.receipt "Full Preprocessing" world0 world0).
  vm_compute. reflexivity.
Defined.

(** X11, witness: without Tesseract the call returns [None] and shows the
    error. *)
Lemma extract_text_from_image_total_witness :
  exists w',
    @Ocr.extract_text_from_image _ Sample.no_tesseract Sample.receipt "No Preprocessing"
      world0
    = (Return None, w') /\
    shown w' = [st_error "Error: tesseract is not installed"].
Proof.
  destruct (@extract_text_from_image_total _ Sample.no_tesseract Sample.receipt
              "No Preprocessing" world0)
    as [result [w' [Hrun [_ Hcase]]]].
  vm_compute in Hcase. destruct Hcase as [-> Hshown].
  exists w'. split; [exact Hrun|exact Hshown].
Defined.



(** X13.  The table behind the CSV download never fails to build: its two
    columns always have the same length.  It has one row per e-mail
    address, phone number and date, in that order, each with its kind.
    The dollar amounts are not in it, and a text whose only entities are
    amounts gets no table at all. *)
Theorem entities_export_rows (a : Ocr.analysis) :
  match Ocr.entities_export a with
  | Some table =>
      table = Return (map (pair "Email") (Ocr.emails a)
                      ++ map (pair "Phone") (Ocr.phones a)
                      ++ map (pair "Date") (Ocr.dates a))%list /\
      (Ocr.emails a ++ Ocr.phones a ++ Ocr.dates a)%list <> []
  | None => Ocr.emails a = [] /\ Ocr.phones a = [] /\ Ocr.dates a = []
  end.
Proof.
  assert (Hcombine : forall (kind : string) (l : list string) types values,
             combine (repeat kind (length l) ++ types)%list (l ++ values)%list
             = (map (pair kind) l ++ combine types values)%list).
  { intros kind l types values. induction l as [|x l IH]; simpl; [reflexivity|].
    now rewrite IH. }
  unfold Ocr.entities_export, Ocr.pd_DataFrame_columns.
  destruct (Ocr.truthy (Ocr.emails a) || Ocr.truthy (Ocr.phones a)
            || Ocr.truthy (Ocr.dates a)) eqn:Hany.
  - split.
    + rewrite !length_app, !repeat_length, Nat.eqb_refl.
      rewrite !Hcombine.
      rewrite <- (app_nil_r (repeat "Date" (length (Ocr.dates a)))).
      rewrite <- (app_nil_r (Ocr.dates a)) at 2.
      rewrite Hcombine. simpl. now rewrite app_nil_r.
    + destruct (Ocr.emails a), (Ocr.phones a), (Ocr.dates a);
        simpl in *; congruence.
  - destruct (Ocr.emails a), (Ocr.phones a), (Ocr.dates a);
      simpl in *; try discriminate. repeat split.
Qed.

(** An address, a date and an amount give two rows; an amount alone gives
    no table. *)
Example entities_export_sample :
  Ocr.entities_export (Ocr.mkAnalysis ["a@b.co"] [] ["1/2/2020"] ["$5"])
  = Some (Return [("Email", "a@b.co"); ("Date", "1/2/2020")]) /\
  Ocr.entities_export (Ocr.mkAnalysis [] [] [] ["$5"]) = None.
Proof. split; reflexivity. Qed.
